(** * The EVE market-order line parser

    A shallow embedding of the two variants of the order-line parser that the
    repository carries, and the properties of its specification that can be
    settled on them.

    - [SelfDelim] is [eve_parser.c]: every scanner first skips the bytes that
      are not digits, so fields delimit themselves;
    - [FixedWidth] is the second variant: scanners read digits only, and the
      assembler steps over a three-byte separator after each field.

    The epoch-day encoder, the timezone corrector and the selection rule of
    the dispatcher have the same text in both files and are embedded once.

    Conventions of the embedding.
    - C integers are [Z] with the wrap-around of their type written out
      ([u8] ... [u64] for the unsigned types, [i32] for [int]; [unsigned int]
      and [int] are 32 bits wide).  For [int] the wrap-around is the one of
      a two's-complement target; ISO C leaves that overflow undefined.
    - A line is a [string]: the text in front of the terminator.  Reading at
      the end of the text yields the terminator (the zero byte).
    - Moving the cursor over the terminator makes every later read depend on
      memory that is not part of the line; such a run has no result here
      ([None]).
    - Arguments of a call are evaluated from left to right, as the sources
      assume when they read year, month and day inside one call.  C leaves
      that order open, and a compiler that runs the three scans in another
      order hands the first number of a date to another argument of
      [ejday]; the movement of the cursor and the checks of the entry
      points do not depend on it.  Statements that name the value of a
      timestamp are either about records, whatever their timestamps, or
      say which argument of [ejday] is meant.
    - A byte is read as its value from 0 to 255; only the cents of a price
      whose fraction starts with a byte above 127 depend on the signedness
      of [char]. *)

From Stdlib Require Import ZArith Bool List Ascii String Lia.
Import ListNotations.
Local Open Scope Z_scope.

(** ** Machine integers *)

Definition u8 (z : Z) : Z := z mod 256.
Definition u16 (z : Z) : Z := z mod 65536.
Definition u32 (z : Z) : Z := z mod 4294967296.
Definition u64 (z : Z) : Z := z mod 18446744073709551616.
Definition i32 (z : Z) : Z := (z + 2147483648) mod 4294967296 - 2147483648.

(** ** Characters and the read cursor *)

Definition code (c : ascii) : Z := Z.of_nat (nat_of_ascii c).

Definition isdigit (c : ascii) : bool := (48 <=? code c) && (code c <=? 57).

Definition is_nul (c : ascii) : bool := (c =? "000")%char.

(** [*str]: the byte under the cursor, the terminator at the end. *)
Definition deref (str : string) : ascii :=
  match str with
  | String c _ => c
  | EmptyString => "000"%char
  end.

(** A scanner reads from the cursor, moves it, and may leave the line. *)
Definition Scan (A : Type) : Type := string -> option (A * string).

Definition ret {A : Type} (a : A) : Scan A := fun str => Some (a, str).

Definition bind {A B : Type} (m : Scan A) (f : A -> Scan B) : Scan B :=
  fun str =>
    match m str with
    | Some (a, str') => f a str'
    | None => None
    end.

Declare Scope scan_scope.
Delimit Scope scan_scope with scan.
Notation "x <- m ;; k" := (bind m (fun x => k))
  (at level 61, m at next level, right associativity) : scan_scope.
Notation "m ;;; k" := (bind m (fun _ => k))
  (at level 61, right associativity) : scan_scope.
Local Open Scope scan_scope.

(** [*str] as a scanner. *)
Definition peek : Scan ascii := fun str => Some (deref str, str).

(** [str++]: one byte forward; no result when that byte is the terminator. *)
Definition bump : Scan unit :=
  fun str =>
    match str with
    | String c t => if is_nul c then None else Some (tt, t)
    | EmptyString => None
    end.

(** A loop that is total on the text, lifted to a scanner. *)
Definition lift {A : Type} (f : string -> A * string) : Scan A :=
  fun str => Some (f str).

Definition run {A : Type} (m : Scan A) (str : string) : option A :=
  match m str with
  | Some (a, _) => Some a
  | None => None
  end.

(** [while (isdigit( *str )) val = val * 10 + *str++ - '0';] in the
    arithmetic of the type of [val], whose wrap-around is [wrap]. *)
Fixpoint scan_digits (wrap : Z -> Z) (val : Z) (str : string) : Z * string :=
  match str with
  | String c t =>
      if isdigit c then scan_digits wrap (wrap (val * 10 + code c - 48)) t
      else (val, str)
  | EmptyString => (val, str)
  end.

(** [while (isdigit( **s )) *s += 1;] *)
Fixpoint skip_digits (str : string) : string :=
  match str with
  | String c t => if isdigit c then skip_digits t else str
  | EmptyString => str
  end.

(** ** The output record *)

(** Modelled from the spec: the declaration of [struct raw_record] is in
    [eve_parser.h], which is not among the sources.  The fields and their
    widths are those of the data model of the specification, and agree with
    the casts of the assembler: [orderID], [price], [reportedby] 64 bits
    unsigned; the identifiers, the volumes, [issued] and [rtime] 32 bits
    unsigned; [duration] 16 bits unsigned; [bid] 8 bits unsigned; [range]
    8 bits signed. *)
Record raw_record : Type := mk_record {
  orderID : Z;
  regionID : Z;
  systemID : Z;
  stationID : Z;
  typeID : Z;
  bid : Z;
  price : Z;
  volMin : Z;
  volRem : Z;
  volEnt : Z;
  issued : Z;
  duration : Z;
  range : Z;
  reportedby : Z;
  rtime : Z
}.

Definition set_range (rec : raw_record) (v : Z) : raw_record :=
  mk_record (orderID rec) (regionID rec) (systemID rec) (stationID rec)
    (typeID rec) (bid rec) (price rec) (volMin rec) (volRem rec) (volEnt rec)
    (issued rec) (duration rec) v (reportedby rec) (rtime rec).

Definition set_issued (rec : raw_record) (v : Z) : raw_record :=
  mk_record (orderID rec) (regionID rec) (systemID rec) (stationID rec)
    (typeID rec) (bid rec) (price rec) (volMin rec) (volRem rec) (volEnt rec)
    v (duration rec) (range rec) (reportedby rec) (rtime rec).

Definition set_rtime (rec : raw_record) (v : Z) : raw_record :=
  mk_record (orderID rec) (regionID rec) (systemID rec) (stationID rec)
    (typeID rec) (bid rec) (price rec) (volMin rec) (volRem rec) (volEnt rec)
    (issued rec) (duration rec) (range rec) (reportedby rec) v.

Definition set_reportedby (rec : raw_record) (v : Z) : raw_record :=
  mk_record (orderID rec) (regionID rec) (systemID rec) (stationID rec)
    (typeID rec) (bid rec) (price rec) (volMin rec) (volRem rec) (volEnt rec)
    (issued rec) (duration rec) (range rec) v (rtime rec).

(** ** Epoch-day encoder and timezone corrector (same text in both files) *)

Definition E_JDAY : Z := 719558.
Definition SEC_PER_DAY : Z := 86400.
Definition SEC_PER_HOUR : Z := 3600.
Definition SEC_PER_MIN : Z := 60.

(** The arguments are [unsigned int], so is every intermediate value.  Sum,
    difference and product commute with the reduction modulo 2^32, which is
    therefore taken once at the end; the quotient by 10 does not, and its
    dividend is reduced first.  The other quotients divide an argument. *)
Definition ejday (year month day : Z) : Z :=
  u32 ((year * 365 + year / 4 - year / 100 + year / 400
        + u32 (month * 306 + 5) / 10 + day - 1 - E_JDAY) * SEC_PER_DAY).

Definition D2006040203 : Z := 1144033200.
Definition D2006102901 : Z := 1162256400.
Definition D2007031103 : Z := 1173754800.

Definition pt_to_utc (pacificTime : Z) : Z :=
  if pacificTime <? D2006040203 then u32 (pacificTime + 8 * SEC_PER_HOUR)
  else if pacificTime <? D2006102901 then u32 (pacificTime + 7 * SEC_PER_HOUR)
  else if pacificTime <? D2007031103 then u32 (pacificTime + 8 * SEC_PER_HOUR)
  else u32 (pacificTime + 7 * SEC_PER_HOUR).

(** ** The dispatcher's selection (same text in both files) *)

(** Modelled from the spec: the type [Parser] is declared in [eve_parser.h],
    which is not among the sources; it is the type of the three per-line
    entry points, and [parser_factory] returns one of them.  The embedding
    returns its name; each variant interprets the name by its own entry
    point ([entry]). *)
Inductive Parser : Type :=
| Parse_pt_bo
| Parse_pt
| Parse.

Definition D20070101 : Z := 1167609600.
Definition D20071001 : Z := 1191369600.

Definition parser_factory (yr mn dy : Z) : Parser :=
  let parsedTime := ejday yr mn dy in
  if parsedTime <? D20070101 then Parse_pt_bo
  else if parsedTime <? D20071001 then Parse_pt
  else Parse.

(** ** Variant with self-delimiting scanners ([eve_parser.c]) *)

Module SelfDelim.

(** [switch] over an [int]. *)
Definition range_to_byte (range : Z) : Z :=
  match range with
  | -1 => -1
  | 0 => 0
  | 5 => 5
  | 10 => 10
  | 20 => 20
  | 40 => 40
  | 32767 | 65535 => 127
  | _ => -2
  end.

(** [while (!isdigit( *str ) && *str != 0) str++;] *)
Fixpoint skip_nondigits (str : string) : string :=
  match str with
  | String c t =>
      if negb (isdigit c) && negb (is_nul c) then skip_nondigits t else str
  | EmptyString => str
  end.

(** [parse_uint64], [parse_uint32] and [parse_int] have one body, in the
    arithmetic of their result type. *)
Definition parse_num (wrap : Z -> Z) : Scan Z :=
  lift (fun str => scan_digits wrap 0 (skip_nondigits str)).

Definition parse_uint64 : Scan Z := parse_num u64.
Definition parse_uint32 : Scan Z := parse_num u32.
Definition parse_int : Scan Z := parse_num i32.

(** [while (!isdigit( *str ) && *str != 0 && *str != '-') str++;] *)
Fixpoint skip_to_sign (str : string) : string :=
  match str with
  | String c t =>
      if negb (isdigit c) && negb (is_nul c) && negb (c =? "-")%char
      then skip_to_sign t else str
  | EmptyString => str
  end.

(** The loop runs on a local copy of the cursor; the caller's cursor is
    written ([*s = str]) only on the path that goes on to [parse_int]. *)
Definition parse_range : Scan Z :=
  fun s =>
    let str := skip_to_sign s in
    if (deref str =? "-")%char then Some (-1, s)
    else (v <- parse_int ;; ret (range_to_byte v)) str.

(** The optional cents behind the whole part of the price. *)
Definition cents (price : Z) : Scan Z :=
  c <- peek ;;
  if (c =? ".")%char then
    bump ;;;
    c1 <- peek ;;
    bump ;;;
    let price := u64 (price + (code c1 - 48) * 10) in
    c2 <- peek ;;
    if isdigit c2 then bump ;;; ret (u64 (price + (code c2 - 48)))
    else ret price
  else ret price.

(** Date, time of day and the rounding test, as written out for [issued]
    and once more for [rtime]. *)
Definition timestamp : Scan Z :=
  year <- parse_int ;;
  month <- parse_int ;;
  day <- parse_int ;;
  let t := ejday (u32 year) (u32 month) (u32 day) in
  hour <- parse_int ;;
  let t := u32 (t + i32 (hour * SEC_PER_HOUR)) in
  minute <- parse_int ;;
  let t := u32 (t + i32 (minute * SEC_PER_MIN)) in
  second <- parse_int ;;
  let t := u32 (t + second) in
  c <- peek ;;
  if isdigit c && (code c - 48 >? 5) then ret (u32 (t + 1)) else ret t.

(** The fields in front of the range.  [range], [reportedby] and [rtime]
    are assigned by [parser_back]. *)
Definition parser_front : Scan raw_record :=
  orderID <- parse_uint64 ;;
  regionID <- parse_uint32 ;;
  systemID <- parse_uint32 ;;
  stationID <- parse_uint32 ;;
  typeID <- parse_uint32 ;;
  bid <- parse_int ;;
  whole <- parse_uint64 ;;
  price <- cents (u64 (whole * 100)) ;;
  volMin <- parse_uint32 ;;
  volRem <- parse_uint32 ;;
  volEnt <- parse_uint32 ;;
  issued <- timestamp ;;
  duration <- parse_uint32 ;;
  parse_int ;;;
  parse_int ;;;
  parse_int ;;;
  ret (mk_record orderID regionID systemID stationID typeID (u8 bid) price
         volMin volRem volEnt issued (u16 duration) 0 0 0).

Definition parser_back (rec : raw_record) : Scan raw_record :=
  range <- parse_range ;;
  reportedby <- parse_uint64 ;;
  rtime <- timestamp ;;
  ret (set_rtime (set_reportedby (set_range rec range) reportedby) rtime).

Definition parser (str : string) : option raw_record :=
  run (rec <- parser_front ;; parser_back rec) str.

(** The checks and corrections of the three entry points, on the assembled
    record; the result is the status and the record left in [*rec]. *)
Definition correct_times (rec : raw_record) : raw_record :=
  set_rtime (set_issued rec (pt_to_utc (issued rec))) (pt_to_utc (rtime rec)).

Definition finish_pt_bo (rec : raw_record) : Z * raw_record :=
  if bid rec >? 1 then (1, rec)
  else
    let rec :=
      if bid rec =? 1 then set_range rec (range_to_byte (-1)) else rec in
    if (range rec =? -2) || (issued rec >? rtime rec) then (1, rec)
    else (0, correct_times rec).

Definition finish_pt (rec : raw_record) : Z * raw_record :=
  if (range rec =? -2) || (issued rec >? rtime rec) then (1, rec)
  else (0, correct_times rec).

Definition finish (rec : raw_record) : Z * raw_record :=
  if (range rec =? -2) || (issued rec >? rtime rec) then (1, rec)
  else (0, rec).

Definition parse_pt_bo (str : string) : option (Z * raw_record) :=
  option_map finish_pt_bo (parser str).

Definition parse_pt (str : string) : option (Z * raw_record) :=
  option_map finish_pt (parser str).

Definition parse (str : string) : option (Z * raw_record) :=
  option_map finish (parser str).

Definition entry (p : Parser) : string -> option (Z * raw_record) :=
  match p with
  | Parse_pt_bo => parse_pt_bo
  | Parse_pt => parse_pt
  | Parse => parse
  end.

End SelfDelim.

(** ** Variant with fixed-width separators *)

Module FixedWidth.

(** Digits only: nothing is skipped in front of them. *)
Definition parse_uint64 : Scan Z := lift (scan_digits u64 0).

(** [switch] over an [unsigned int]: there is no case for -1. *)
Definition range_to_byte (range : Z) : Z :=
  match range with
  | 0 => 0
  | 5 => 5
  | 10 => 10
  | 20 => 20
  | 40 => 40
  | 32767 | 65535 => 127
  | _ => -2
  end.

Definition parse_range : Scan Z :=
  c <- peek ;;
  if (c =? "-")%char then
    bump ;;;
    lift (fun str => (tt, skip_digits str)) ;;;
    ret (-1)
  else
    v <- parse_uint64 ;;
    ret (range_to_byte (u32 v)).

Definition parse_datetime : Scan Z :=
  year <- parse_uint64 ;;
  month <- parse_uint64 ;;
  day <- parse_uint64 ;;
  let val := ejday (u32 year) (u32 month) (u32 day) in
  hour <- parse_uint64 ;;
  let val := u32 (val + u32 (u32 hour * SEC_PER_HOUR)) in
  minute <- parse_uint64 ;;
  let val := u32 (val + u32 (u32 minute * SEC_PER_MIN)) in
  second <- parse_uint64 ;;
  let val := u32 (val + u32 second) in
  c <- peek ;;
  if negb (c =? ".")%char then ret val
  else
    bump ;;;
    d <- peek ;;
    let val :=
      if isdigit d && (code d - 48 >? 5) then u32 (val + 1) else val in
    lift (fun str => (tt, skip_digits str)) ;;;
    ret val.

(** [str += 3] *)
Definition skip3 : Scan unit := bump ;;; bump ;;; bump.

Definition cents (price : Z) : Scan Z :=
  c <- peek ;;
  if (c =? ".")%char then
    bump ;;;
    c1 <- peek ;;
    bump ;;;
    let price := u64 (price + u32 (u32 (code c1 - 48) * 10)) in
    c2 <- peek ;;
    if isdigit c2 then bump ;;; ret (u64 (price + u32 (code c2 - 48)))
    else ret price
  else ret price.

Definition parser_scan : Scan raw_record :=
  q <- peek ;;
  (if (q =? "034")%char then bump else ret tt) ;;;
  orderID <- parse_uint64 ;; skip3 ;;;
  regionID <- parse_uint64 ;; skip3 ;;;
  systemID <- parse_uint64 ;; skip3 ;;;
  stationID <- parse_uint64 ;; skip3 ;;;
  typeID <- parse_uint64 ;; skip3 ;;;
  bid <- parse_uint64 ;; skip3 ;;;
  whole <- parse_uint64 ;;
  price <- cents (u64 (whole * 100)) ;;
  skip3 ;;;
  volMin <- parse_uint64 ;; skip3 ;;;
  volRem <- parse_uint64 ;; skip3 ;;;
  volEnt <- parse_uint64 ;; skip3 ;;;
  issued <- parse_datetime ;; skip3 ;;;
  duration <- parse_uint64 ;;
  parse_uint64 ;;;
  parse_uint64 ;;;
  parse_uint64 ;;;
  dot <- peek ;;
  (if (dot =? ".")%char then bump ;;; parse_uint64 ;;; ret tt else ret tt) ;;;
  skip3 ;;;
  range <- parse_range ;; skip3 ;;;
  reportedby <- parse_uint64 ;; skip3 ;;;
  rtime <- parse_datetime ;;
  ret (mk_record orderID (u32 regionID) (u32 systemID) (u32 stationID)
         (u32 typeID) (u8 bid) price (u32 volMin) (u32 volRem) (u32 volEnt)
         issued (u16 duration) range reportedby rtime).

Definition parser (str : string) : option raw_record := run parser_scan str.

Definition has_badval (rec : raw_record) : Z :=
  if issued rec >? rtime rec then 1
  else if bid rec >? 1 then 2
  else if range rec =? -2 then 3
  else 0.

Definition correct_times (rec : raw_record) : raw_record :=
  set_rtime (set_issued rec (pt_to_utc (issued rec))) (pt_to_utc (rtime rec)).

Definition finish_pt_bo (rec : raw_record) : Z * raw_record :=
  let rec := if bid rec =? 1 then set_range rec (-1) else rec in
  let rec := correct_times rec in
  (has_badval rec, rec).

Definition finish_pt (rec : raw_record) : Z * raw_record :=
  let rec := correct_times rec in
  (has_badval rec, rec).

Definition finish (rec : raw_record) : Z * raw_record :=
  (has_badval rec, rec).

Definition parse_pt_bo (str : string) : option (Z * raw_record) :=
  option_map finish_pt_bo (parser str).

Definition parse_pt (str : string) : option (Z * raw_record) :=
  option_map finish_pt (parser str).

Definition parse (str : string) : option (Z * raw_record) :=
  option_map finish (parser str).

Definition entry (p : Parser) : string -> option (Z * raw_record) :=
  match p with
  | Parse_pt_bo => parse_pt_bo
  | Parse_pt => parse_pt
  | Parse => parse
  end.

End FixedWidth.

(** Lines are written with an apostrophe where the text has a double quote. *)
Fixpoint quoted (s : string) : string :=
  match s with
  | String c t => String (if (c =? "'")%char then "034"%char else c) (quoted t)
  | EmptyString => EmptyString
  end.

(** ** Reference calendar *)

(** The proleptic Gregorian calendar in the words of the specification, for
    the years from 1970 on: the epoch seconds of a date at 00:00:00 are
    86400 times the days from 1 January 1970, counted year by year and
    month by month.  [ejday] is compared with it. *)
Definition leap_year (y : Z) : bool :=
  (y mod 4 =? 0) && (negb (y mod 100 =? 0) || (y mod 400 =? 0)).

Definition days_in_year (y : Z) : Z := if leap_year y then 366 else 365.

Definition days_in_month (y m : Z) : Z :=
  match m with
  | 1 | 3 | 5 | 7 | 8 | 10 | 12 => 31
  | 4 | 6 | 9 | 11 => 30
  | 2 => if leap_year y then 29 else 28
  | _ => 0
  end.

Definition valid_date (y m d : Z) : bool :=
  (1 <=? m) && (m <=? 12) && (1 <=? d) && (d <=? days_in_month y m).

Definition days_before_year (y : Z) : Z :=
  fold_left (fun acc k => acc + days_in_year (1970 + Z.of_nat k))
    (seq 0 (Z.to_nat (y - 1970))) 0.

Definition days_before_month (y m : Z) : Z :=
  fold_left (fun acc k => acc + days_in_month y (Z.of_nat k))
    (seq 1 (Z.to_nat (m - 1))) 0.

Definition gregorian_epoch (y m d : Z) : Z :=
  (days_before_year y + days_before_month y m + d - 1) * 86400.

(** The dates of one year on which [ejday] and the calendar agree, and the
    years from [y] on, [n] of them, in which they agree exactly in January
    of a common year and in February of a leap year. *)
Definition agree (y m d : Z) : bool := ejday y m d =? gregorian_epoch y m d.

Definition agree_as_expected (y m d : Z) : bool :=
  Bool.eqb (agree y m d)
      (if leap_year y then m =? 2 else m =? 1).

Definition year_as_expected (y : Z) : bool :=
  forallb (fun m =>
    forallb (fun d => agree_as_expected y (Z.of_nat m) (Z.of_nat d))
      (seq 1 (Z.to_nat (days_in_month y (Z.of_nat m)))))
    (seq 1 12).

Definition years_as_expected (y : Z) (n : nat) : bool :=
  forallb (fun k => year_as_expected (y + Z.of_nat k)) (seq 0 n).

(** The selection in the words of the specification: the calendar cut at
    2007-01-01 and at 2007-10-01.  [selection_as_expected y n] holds when,
    on every valid date of the [n] years from [y] on, [parser_factory]
    differs from it exactly on 30 and 31 December 2006. *)
Definition calendar_selection (y m d : Z) : Parser :=
  if gregorian_epoch y m d <? gregorian_epoch 2007 1 1 then Parse_pt_bo
  else if gregorian_epoch y m d <? gregorian_epoch 2007 10 1 then Parse_pt
  else Parse.

Definition same_parser (p q : Parser) : bool :=
  match p, q with
  | Parse_pt_bo, Parse_pt_bo | Parse_pt, Parse_pt | Parse, Parse => true
  | _, _ => false
  end.

Definition selection_as_expected (y : Z) (n : nat) : bool :=
  forallb (fun k =>
    let y := y + Z.of_nat k in
    forallb (fun m =>
      let m := Z.of_nat m in
      forallb (fun d =>
        let d := Z.of_nat d in
        Bool.eqb (same_parser (parser_factory y m d) (calendar_selection y m d))
                 (negb ((y =? 2006) && (m =? 12) && (30 <=? d))))
        (seq 1 (Z.to_nat (days_in_month y m))))
      (seq 1 12))
    (seq 0 n).

(** ** Sample lines *)

(** A line of the historical dumps: sell side and buy side, without and
    with fractional seconds in the two timestamps. *)
Definition line_buy : string := quoted
  "'123','10000002','30000142','60003760','34','1','1234.56','1','100','100','2006-01-15 10:00:00','90 days, 0:00:00','32767','0','2006-01-16 05:00:01'".

Definition line_buy_frac6 : string := quoted
  "'123','10000002','30000142','60003760','34','1','1234.56','1','100','100','2006-01-15 10:00:00','90 days, 0:00:00','32767','0','2006-01-16 05:00:01.600'".

Definition line_issued_frac6 : string := quoted
  "'123','10000002','30000142','60003760','34','1','1234.56','1','100','100','2006-01-15 10:00:00.600','90 days, 0:00:00','32767','0','2006-01-16 05:00:01'".

Definition line_bid2 : string := quoted
  "'123','10000002','30000142','60003760','34','2','1234.56','1','100','100','2007-02-15 10:00:00','90 days, 0:00:00','32767','0','2007-02-16 05:00:01'".

Definition line_late : string := quoted
  "'123','10000002','30000142','60003760','34','0','1234.56','1','100','100','2006-01-17 10:00:00','90 days, 0:00:00','32767','0','2006-01-16 05:00:01'".

Definition line_minus : string := quoted
  "'123','10000002','30000142','60003760','34','0','1234.56','1','100','100','2006-01-15 10:00:00','90 days, 0:00:00','-1','77','2006-01-16 05:00:01'".

(** Lines on which the fixed-width variant stays inside the text: every
    field is one run of digits, every separator three bytes. *)
Definition fixed_bid2 : string := quoted
  "'1','2','3','4','5','2','10.5','1','1','1','2006','90','5','7','2007'".

Definition fixed_late : string := quoted
  "'1','2','3','4','5','0','10.5','1','1','1','2007','90','5','7','2006'".

Definition fixed_buy : string := quoted
  "'1','2','3','4','5','1','10.5','1','1','1','2006','90','5','7','2007'".

(** The same with day numbers in the place of the years, for a build that
    runs the scan of the day first. *)
Definition fixed_buy_days : string := quoted
  "'1','2','3','4','5','1','10.5','1','1','1','732800','90','5','7','732801'".

Definition fixed_bad_range : string := quoted
  "'1','2','3','4','5','0','10.5','1','1','1','2006','90','7','7','2007'".

(** The records assembled from some of these lines. *)
Definition rec_bid2 : raw_record :=
  mk_record 123 10000002 30000142 60003760 34 2 123456 1 100 100
    1171447200 90 127 0 1171515601.

Definition rec_late : raw_record :=
  mk_record 123 10000002 30000142 60003760 34 0 123456 1 100 100
    1137492000 90 127 0 1137387601.

Definition rec_buy : raw_record :=
  mk_record 123 10000002 30000142 60003760 34 1 123456 1 100 100
    1137319200 90 127 0 1137387601.

Definition fixed_rec_bid2 : raw_record :=
  mk_record 1 2 3 4 5 2 1050 1 1 1 1133308800 90 5 7 1164844800.

(** A separator in front of the range field: neither a digit, nor the
    terminator, nor the minus sign. *)
Definition is_sep (c : ascii) : bool :=
  negb (isdigit c) && negb (is_nul c) && negb (c =? "-")%char.

Fixpoint all_chars (p : ascii -> bool) (s : string) : bool :=
  match s with
  | String c t => p c && all_chars p t
  | EmptyString => true
  end.

(** No full stop stands right in front of a terminator. *)
Fixpoint no_final_dot (s : string) : bool :=
  match s with
  | String c t => negb ((c =? ".")%char && is_nul (deref t)) && no_final_dot t
  | EmptyString => true
  end.

(** A scanner that, started inside such a text, has a result and stays
    inside such a text. *)
Definition stays_inside {A : Type} (m : Scan A) : Prop :=
  forall str, no_final_dot str = true ->
  exists a rest, m str = Some (a, rest) /\ no_final_dot rest = true.

(** ** Notions for the further properties *)

(** The value of a run of decimal digits read after [acc], most significant
    digit first. *)
Fixpoint decimal_from (acc : Z) (ds : string) : Z :=
  match ds with
  | String c t => decimal_from (acc * 10 + (code c - 48)) t
  | EmptyString => acc
  end.

Definition decimal (ds : string) : Z := decimal_from 0 ds.

(** A byte that the scanners of [eve_parser.c] skip in front of a number. *)
Definition is_blank (c : ascii) : bool := negb (isdigit c) && negb (is_nul c).

(** The values a range field can hold, and the bounds of the field types. *)
Definition range_codes : list Z := [-2; -1; 0; 5; 10; 20; 40; 127].

Definition well_typed (rec : raw_record) : Prop :=
  0 <= orderID rec < 18446744073709551616 /\
  0 <= regionID rec < 4294967296 /\
  0 <= systemID rec < 4294967296 /\
  0 <= stationID rec < 4294967296 /\
  0 <= typeID rec < 4294967296 /\
  0 <= bid rec < 256 /\
  0 <= price rec < 18446744073709551616 /\
  0 <= volMin rec < 4294967296 /\
  0 <= volRem rec < 4294967296 /\
  0 <= volEnt rec < 4294967296 /\
  0 <= issued rec < 4294967296 /\
  0 <= duration rec < 65536 /\
  In (range rec) range_codes /\
  0 <= reportedby rec < 18446744073709551616 /\
  0 <= rtime rec < 4294967296.

(** The record that [eve_parser.c] assembles from a line without digits. *)
Definition blank_record : raw_record :=
  mk_record 0 0 0 0 0 0 0 0 0 0 (ejday 0 0 0) 0 0 0 (ejday 0 0 0).

(** The days that [ejday] counts, before the multiplication and the
    reduction to 32 bits. *)
Definition ejday_days (year month day : Z) : Z :=
  year * 365 + year / 4 - year / 100 + year / 400
  + (month * 306 + 5) / 10 + day - 1 - E_JDAY.

(** The two statements of [parser] that assemble the price, the whole part
    and the optional cents (lines 152 to 159 of both files), as they follow
    each other in [parser_front] and in [parser_scan]. *)
Definition price_field : Scan Z :=
  whole <- SelfDelim.parse_uint64 ;; SelfDelim.cents (u64 (whole * 100)).

Definition fixed_price_field : Scan Z :=
  whole <- FixedWidth.parse_uint64 ;; FixedWidth.cents (u64 (whole * 100)).

(** A scanner that never moves the cursor backwards. *)
Definition forward {A : Type} (m : Scan A) : Prop :=
  forall str a rest,
    m str = Some (a, rest) -> (String.length rest <= String.length str)%nat.

(** A line of fourteen empty separators and nothing else. *)
Definition fixed_shortest : string :=
  ",,,,,,,,,,,,,,,,,,,,,,,,,,,,,,,,,,,,,,,,,,".

(** A sell order whose range code is not in the table. *)
Definition line_range7 : string := quoted
  "'123','10000002','30000142','60003760','34','0','1234.56','1','100','100','2006-01-15 10:00:00','90 days, 0:00:00','7','0','2006-01-16 05:00:01'".

(** * Properties *)

(** ** Machine integers *)

Lemma u8_range (z : Z) : 0 <= u8 z < 256.
Proof. unfold u8. apply Z.mod_pos_bound. lia. Qed.

Lemma u32_range (z : Z) : 0 <= u32 z < 4294967296.
Proof. unfold u32. apply Z.mod_pos_bound. lia. Qed.

Lemma u32_small (z : Z) : 0 <= z < 4294967296 -> u32 z = z.
Proof. intros H. unfold u32. apply Z.mod_small. exact H. Qed.

(** ** Range encoder *)

Lemma range_to_byte_default (z : Z) :
  z <> -1 -> z <> 0 -> z <> 5 -> z <> 10 -> z <> 20 -> z <> 40 ->
  z <> 32767 -> z <> 65535 ->
  SelfDelim.range_to_byte z = -2.
Proof.
  intros Hm1 H0 H5 H10 H20 H40 H32767 H65535.
  unfold SelfDelim.range_to_byte.
  destruct z as [|p|p]; [lia| |].
  - do 16 (try (destruct p as [p|p|]; try reflexivity; try lia)).
  - do 2 (try (destruct p as [p|p|]; try reflexivity; try lia)).
Qed.

(** On the inputs of its type the encoder of the fixed-width variant is the
    same table: an [unsigned int] is never -1. *)
Lemma range_to_byte_unsigned (z : Z) :
  0 <= z -> FixedWidth.range_to_byte z = SelfDelim.range_to_byte z.
Proof.
  intros Hz. destruct z as [|p|p]; [reflexivity|reflexivity|lia].
Qed.

Lemma skip_to_sign_stops (sep rest : string) :
  all_chars is_sep sep = true ->
  SelfDelim.skip_to_sign (sep ++ String "-" rest)%string = String "-" rest.
Proof.
  induction sep as [|c sep IH]; intros Hsep.
  - reflexivity.
  - simpl in Hsep. apply andb_prop in Hsep. destruct Hsep as [Hc Hsep].
    simpl. unfold is_sep in Hc. rewrite Hc. apply IH. exact Hsep.
Qed.

(** C6.  The range encoder of [eve_parser.c] maps -1, 0, 5, 10, 20 and 40
    to themselves, 32767 and 65535 to 127, and every other integer to the
    invalid sentinel -2.  A minus sign in the text of the range field is
    recognised before any digit is scanned and encodes as -1: behind any run
    of separators in the self-delimiting variant, under the cursor in the
    fixed-width variant. *)
Theorem C6_range_encoder (z : Z) (sep rest : string) :
  (SelfDelim.range_to_byte (-1) = -1 /\
   SelfDelim.range_to_byte 0 = 0 /\
   SelfDelim.range_to_byte 5 = 5 /\
   SelfDelim.range_to_byte 10 = 10 /\
   SelfDelim.range_to_byte 20 = 20 /\
   SelfDelim.range_to_byte 40 = 40 /\
   SelfDelim.range_to_byte 32767 = 127 /\
   SelfDelim.range_to_byte 65535 = 127) /\
  (~ In z [-1; 0; 5; 10; 20; 40; 32767; 65535] ->
   SelfDelim.range_to_byte z = -2) /\
  (all_chars is_sep sep = true ->
   SelfDelim.parse_range (sep ++ String "-" rest)%string
   = Some (-1, (sep ++ String "-" rest)%string)) /\
  FixedWidth.parse_range (String "-" rest) = Some (-1, skip_digits rest).
Proof.
  split; [repeat split; reflexivity|].
  split; [|split].
  - intros Hz. simpl in Hz.
    apply range_to_byte_default; intros ->; apply Hz; tauto.
  - intros Hsep. unfold SelfDelim.parse_range.
    rewrite (skip_to_sign_stops sep rest Hsep). reflexivity.
  - reflexivity.
Qed.

Lemma C6_range_encoder_witness :
  SelfDelim.range_to_byte 7 = -2 /\
  SelfDelim.parse_range (quoted "','-1','77'")
  = Some (-1, quoted "','-1','77'").
Proof.
  destruct (C6_range_encoder 7 (quoted "','") (quoted "1','77'"))
    as (_ & Hdefault & Hsign & _).
  split.
  - apply Hdefault. simpl. intros H.
    repeat destruct H as [H|H]; try discriminate H; exact H.
  - apply Hsign. reflexivity.
Defined.

(** ** Timezone corrector *)

Lemma pt_to_utc_eq (x : Z) :
  pt_to_utc x
  = u32 (x + (if x <? 1144033200 then 28800
              else if x <? 1162256400 then 25200
              else if x <? 1173754800 then 28800 else 25200)).
Proof.
  unfold pt_to_utc, D2006040203, D2006102901, D2007031103, SEC_PER_HOUR.
  destruct (x <? 1144033200); [reflexivity|].
  destruct (x <? 1162256400); [reflexivity|].
  destruct (x <? 1173754800); reflexivity.
Qed.

Lemma u32_offset (x k : Z) :
  0 <= k < 4294967296 -> u32 (u32 (x + k) - x) = k.
Proof.
  intros Hk. unfold u32. rewrite Zminus_mod_idemp_l.
  replace (x + k - x) with k by lia. apply Z.mod_small. exact Hk.
Qed.

(** C7.  [pt_to_utc] adds 8 hours below 1144033200, 7 hours from there up to
    1162256400, 8 hours from there up to 1173754800 and 7 hours from there
    on; the sum is the one of [uint32_t], which is the plain sum unless the
    input is within 7 hours of 2^32.  Two inputs of one segment are moved by
    the same offset. *)
Theorem C7_pt_to_utc_piecewise (t t' : Z) :
  0 <= t < 4294967296 -> 0 <= t' < 4294967296 ->
  (t < 1144033200 -> pt_to_utc t = t + 8 * 3600) /\
  (1144033200 <= t < 1162256400 -> pt_to_utc t = t + 7 * 3600) /\
  (1162256400 <= t < 1173754800 -> pt_to_utc t = t + 8 * 3600) /\
  (1173754800 <= t -> pt_to_utc t = u32 (t + 7 * 3600)) /\
  (1173754800 <= t < 4294967296 - 7 * 3600 -> pt_to_utc t = t + 7 * 3600) /\
  ((t < 1144033200 /\ t' < 1144033200) \/
   (1144033200 <= t < 1162256400 /\ 1144033200 <= t' < 1162256400) \/
   (1162256400 <= t < 1173754800 /\ 1162256400 <= t' < 1173754800) \/
   (1173754800 <= t /\ 1173754800 <= t') ->
   u32 (pt_to_utc t - t) = u32 (pt_to_utc t' - t')).
Proof.
  intros Ht Ht'.
  rewrite (pt_to_utc_eq t), (pt_to_utc_eq t').
  destruct (Z.ltb_spec t 1144033200) as [H1|H1];
    [|destruct (Z.ltb_spec t 1162256400) as [H2|H2];
      [|destruct (Z.ltb_spec t 1173754800) as [H3|H3]]];
  (repeat split; intros H; try lia;
   try (apply u32_small; lia); try reflexivity;
   rewrite u32_offset by lia;
   destruct (Z.ltb_spec t' 1144033200);
     [|destruct (Z.ltb_spec t' 1162256400);
       [|destruct (Z.ltb_spec t' 1173754800)]];
   try lia; rewrite u32_offset by lia; reflexivity).
Qed.

Lemma C7_pt_to_utc_piecewise_witness :
  pt_to_utc 1137319200 = 1137319200 + 8 * 3600 /\
  u32 (pt_to_utc 1137319200 - 1137319200)
  = u32 (pt_to_utc 1137387601 - 1137387601).
Proof.
  assert (H1 : 0 <= 1137319200 < 4294967296) by lia.
  assert (H2 : 0 <= 1137387601 < 4294967296) by lia.
  destruct (C7_pt_to_utc_piecewise 1137319200 1137387601 H1 H2)
    as (Ha & _ & _ & _ & _ & Hsame).
  split.
  - apply Ha. lia.
  - apply Hsame. left. lia.
Defined.

(** ** Epoch-day encoder *)

(** C4.  [ejday] meets the calendar on 1 January 2007, where it returns
    1167609600, but not on every valid date: 1 February 2007 is 1170288000
    and [ejday] returns 1170201600, one day less.  Over the years 2004 to
    2008 the two agree exactly in January of a common year and in February
    of a leap year. *)
Theorem C4_ejday_against_calendar :
  ejday 2007 1 1 = 1167609600 /\
  gregorian_epoch 2007 1 1 = 1167609600 /\
  valid_date 2007 2 1 = true /\
  gregorian_epoch 2007 2 1 = 1170288000 /\
  ejday 2007 2 1 = 1170201600 /\
  years_as_expected 2004 5 = true.
Proof.
  split; [vm_compute; reflexivity|].
  split; [vm_compute; reflexivity|].
  split; [vm_compute; reflexivity|].
  split; [vm_compute; reflexivity|].
  split; vm_compute; reflexivity.
Qed.

(** ** Dispatcher *)

(** C8.  [parser_factory] selects [parse_pt] at 2007-01-01 and [parse] at
    2007-10-01, but the selection is not the partition of the calendar at
    these two dates: 30 and 31 December 2006 lie before 2007-01-01 and
    select [parse_pt], because [ejday] places them on and after the
    boundary.  On the other dates of 2005 to 2008 the selection is the one
    of the calendar. *)
Theorem C8_parser_factory_boundaries :
  parser_factory 2007 1 1 = Parse_pt /\
  parser_factory 2007 10 1 = Parse /\
  parser_factory 2007 9 30 = Parse_pt /\
  parser_factory 2006 12 29 = Parse_pt_bo /\
  valid_date 2006 12 31 = true /\
  (gregorian_epoch 2006 12 31 <? gregorian_epoch 2007 1 1) = true /\
  ejday 2006 12 31 = 1167696000 /\
  parser_factory 2006 12 31 = Parse_pt /\
  parser_factory 2006 12 30 = Parse_pt /\
  selection_as_expected 2005 4 = true.
Proof.
  do 9 (split; [vm_compute; reflexivity|]). vm_compute; reflexivity.
Qed.

(** ** Scanners *)

Lemma bind_inv {A B : Type} (m : Scan A) (f : A -> Scan B)
    (str str' : string) (b : B) :
  bind m f str = Some (b, str') ->
  exists a str1, m str = Some (a, str1) /\ f a str1 = Some (b, str').
Proof.
  unfold bind. destruct (m str) as [[a str1]|]; [|discriminate].
  intros H. exists a, str1. split; [reflexivity|exact H].
Qed.

Lemma ret_inv {A : Type} (a b : A) (str str' : string) :
  ret a str = Some (b, str') -> b = a /\ str' = str.
Proof. unfold ret. intros H. injection H as <- <-. split; reflexivity. Qed.

Lemma run_inv {A : Type} (m : Scan A) (str : string) (a : A) :
  run m str = Some a -> exists str', m str = Some (a, str').
Proof.
  unfold run. destruct (m str) as [[a' str']|]; [|discriminate].
  intros H. injection H as <-. exists str'. reflexivity.
Qed.

(** Takes a chain of [bind]s apart, down to its final [ret]. *)
Ltac scan_inv H :=
  repeat (apply bind_inv in H; cbv beta in H;
          let a := fresh "v" in
          let s := fresh "cur" in
          let E := fresh "E" in
          destruct H as (a & s & E & H)).


Lemma skip_nondigits_sep (sep rest : string) :
  all_chars is_sep sep = true ->
  SelfDelim.skip_nondigits (sep ++ String "-" rest)%string
  = SelfDelim.skip_nondigits rest.
Proof.
  induction sep as [|c sep IH]; intros Hsep.
  - reflexivity.
  - simpl in Hsep. apply andb_prop in Hsep. destruct Hsep as [Hc Hsep].
    unfold is_sep in Hc. apply andb_prop in Hc. destruct Hc as [Hc _].
    simpl. rewrite Hc. apply IH. exact Hsep.
Qed.

Section SelfDelimAssembly.

Import SelfDelim.

Lemma parse_num_total (wrap : Z -> Z) (str : string) :
  exists v rest, parse_num wrap str = Some (v, rest).
Proof.
  unfold parse_num, lift.
  destruct (scan_digits wrap 0 (skip_nondigits str)) as [v rest].
  exists v, rest. reflexivity.
Qed.



Lemma timestamp_total (str : string) :
  exists t rest, timestamp str = Some (t, rest).
Proof.
  unfold timestamp, bind, parse_int, parse_num, lift, peek.
  repeat match goal with
  | |- context [scan_digits ?w ?v ?s] =>
      destruct (scan_digits w v s) as [? ?]
  end.
  match goal with
  | |- context [if ?b then _ else _] => destruct b
  end; eexists; eexists; reflexivity.
Qed.

Lemma parser_front_bid (str cur : string) (rec : raw_record) :
  parser_front str = Some (rec, cur) -> 0 <= bid rec < 256.
Proof.
  unfold parser_front. intros H. scan_inv H.
  apply ret_inv in H. destruct H as [-> _]. simpl. apply u8_range.
Qed.

Lemma parser_back_keeps (rec0 rec : raw_record) (str cur : string) :
  parser_back rec0 str = Some (rec, cur) ->
  bid rec = bid rec0 /\ issued rec = issued rec0.
Proof.
  unfold parser_back. intros H. scan_inv H.
  apply ret_inv in H. destruct H as [-> _]. split; reflexivity.
Qed.

Lemma parser_bid (str : string) (rec : raw_record) :
  parser str = Some rec -> 0 <= bid rec < 256.
Proof.
  unfold parser. intros H. apply run_inv in H. destruct H as [cur H].
  scan_inv H. apply ret_inv in H. destruct H as [-> _]. simpl.
  eapply parser_front_bid. eassumption.
Qed.

End SelfDelimAssembly.

Section FixedWidthAssembly.

Import FixedWidth.

Lemma fixed_parser_bid (str : string) (rec : raw_record) :
  parser str = Some rec -> 0 <= bid rec < 256.
Proof.
  unfold parser. intros H. apply run_inv in H. destruct H as [cur H].
  unfold parser_scan in H. scan_inv H.
  apply ret_inv in H. destruct H as [-> _]. simpl. apply u8_range.
Qed.

End FixedWidthAssembly.

(** ** Status of the entry points *)

Lemma has_badval_values (rec : raw_record) :
  FixedWidth.has_badval rec = 0 \/ FixedWidth.has_badval rec = 1 \/
  FixedWidth.has_badval rec = 2 \/ FixedWidth.has_badval rec = 3.
Proof.
  unfold FixedWidth.has_badval.
  destruct (issued rec >? rtime rec); [tauto|].
  destruct (bid rec >? 1); [tauto|].
  destruct (range rec =? -2); tauto.
Qed.

Lemma entry_defined (p : Parser) (str : string) (rec : raw_record) :
  (SelfDelim.parser str = Some rec ->
   exists st out, SelfDelim.entry p str = Some (st, out)) /\
  (FixedWidth.parser str = Some rec ->
   exists st out, FixedWidth.entry p str = Some (st, out)).
Proof.
  split; intros H; destruct p; simpl;
    unfold SelfDelim.parse_pt_bo, SelfDelim.parse_pt, SelfDelim.parse,
      FixedWidth.parse_pt_bo, FixedWidth.parse_pt, FixedWidth.parse;
    rewrite H; simpl;
    match goal with
    | |- exists st out, Some ?x = Some (st, out) =>
        exists (fst x), (snd x); destruct x; reflexivity
    end.
Qed.

Lemma selfdelim_status (p : Parser) (str : string) (st : Z)
    (out : raw_record) :
  SelfDelim.entry p str = Some (st, out) -> st = 0 \/ st = 1.
Proof.
  destruct p; simpl;
    unfold SelfDelim.parse_pt_bo, SelfDelim.parse_pt, SelfDelim.parse;
    destruct (SelfDelim.parser str) as [rec|]; simpl; try discriminate;
    unfold SelfDelim.finish_pt_bo, SelfDelim.finish_pt, SelfDelim.finish;
    intros H;
    repeat match type of H with
    | context [if ?b then _ else _] => destruct b
    end;
    injection H as <- _; tauto.
Qed.

(** C5, as the code has it.  The entry points of [eve_parser.c] return 0 or
    1 and nothing else.  Those of the fixed-width variant return the code of
    [has_badval] for the record they leave: 0, 1 (issued after rtime),
    2 (bid above 1) or 3 (invalid range).  Either way a line on which the
    assembler stays inside the text gets a status. *)
Theorem C5_status_values (p : Parser) (str : string) (st : Z)
    (out : raw_record) :
  (SelfDelim.entry p str = Some (st, out) -> st = 0 \/ st = 1) /\
  (FixedWidth.entry p str = Some (st, out) ->
   st = FixedWidth.has_badval out /\
   (st = 0 \/ st = 1 \/ st = 2 \/ st = 3)) /\
  (SelfDelim.parser str <> None -> SelfDelim.entry p str <> None) /\
  (FixedWidth.parser str <> None -> FixedWidth.entry p str <> None).
Proof.
  split; [|split; [|split]].
  - apply selfdelim_status.
  - destruct p; simpl;
      unfold FixedWidth.parse_pt_bo, FixedWidth.parse_pt, FixedWidth.parse;
      destruct (FixedWidth.parser str) as [rec|]; simpl; try discriminate;
      unfold FixedWidth.finish_pt_bo, FixedWidth.finish_pt, FixedWidth.finish;
      intros H; injection H as <- <-;
      (split; [reflexivity|apply has_badval_values]).
  - destruct (SelfDelim.parser str) as [rec|] eqn:E; [|congruence].
    intros _. destruct (proj1 (entry_defined p str rec) E) as (s & o & ->).
    discriminate.
  - destruct (FixedWidth.parser str) as [rec|] eqn:E; [|congruence].
    intros _. destruct (proj2 (entry_defined p str rec) E) as (s & o & ->).
    discriminate.
Qed.

Lemma C5_status_values_witness :
  SelfDelim.entry Parse_pt_bo line_bid2 = Some (1, rec_bid2) /\
  (1 = 0 \/ 1 = 1) /\
  FixedWidth.entry Parse fixed_bid2 = Some (2, fixed_rec_bid2) /\
  2 = FixedWidth.has_badval fixed_rec_bid2 /\
  (2 = 0 \/ 2 = 1 \/ 2 = 2 \/ 2 = 3).
Proof.
  assert (H1 : SelfDelim.entry Parse_pt_bo line_bid2 = Some (1, rec_bid2))
    by (vm_compute; reflexivity).
  assert (H2 : FixedWidth.entry Parse fixed_bid2 = Some (2, fixed_rec_bid2))
    by (vm_compute; reflexivity).
  split; [exact H1|].
  split; [exact (proj1 (C5_status_values _ _ _ _) H1)|].
  split; [exact H2|].
  exact (proj1 (proj2 (C5_status_values _ _ _ _)) H2).
Defined.

(** C5, as stated, fails on the fixed-width variant: a bid of 2 gives
    status 2, an unknown range code gives status 3. *)
Lemma C5_counterexample :
  FixedWidth.parse fixed_bid2
  = Some (2, mk_record 1 2 3 4 5 2 1050 1 1 1 1133308800 90 5 7 1164844800) /\
  FixedWidth.parse fixed_bad_range
  = Some (3, mk_record 1 2 3 4 5 0 1050 1 1 1 1133308800 90 (-2) 7 1164844800).
Proof. split; vm_compute; reflexivity. Qed.

(** C1, as the code has it.  When the bid of the assembled record is
    neither 0 nor 1, [parse_pt_bo] of [eve_parser.c] returns status 1 and
    leaves the record as assembled; every entry point of the fixed-width
    variant returns a status other than 0: 1 when issued is after rtime in
    the record it leaves, 2 otherwise. *)
Theorem C1_bad_bid_rejected (p : Parser) (str : string) (rec : raw_record) :
  bid rec <> 0 -> bid rec <> 1 ->
  (SelfDelim.parser str = Some rec ->
   SelfDelim.parse_pt_bo str = Some (1, rec)) /\
  (FixedWidth.parser str = Some rec ->
   exists st out,
     FixedWidth.entry p str = Some (st, out) /\
     bid out = bid rec /\
     st = if issued out >? rtime out then 1 else 2).
Proof.
  intros H0 H1. split; intros E.
  - pose proof (parser_bid str rec E) as Hb.
    unfold SelfDelim.parse_pt_bo. rewrite E. simpl.
    unfold SelfDelim.finish_pt_bo.
    destruct (Z.gtb_spec (bid rec) 1); [reflexivity|lia].
  - pose proof (fixed_parser_bid str rec E) as Hb.
    assert (Hgt : (bid rec >? 1) = true)
      by (destruct (Z.gtb_spec (bid rec) 1); [reflexivity|lia]).
    assert (Hne : (bid rec =? 1) = false) by (apply Z.eqb_neq; exact H1).
    destruct p; simpl;
      unfold FixedWidth.parse_pt_bo, FixedWidth.parse_pt, FixedWidth.parse;
      rewrite E; simpl;
      unfold FixedWidth.finish_pt_bo, FixedWidth.finish_pt, FixedWidth.finish;
      try rewrite Hne;
      (eexists; eexists; split; [reflexivity|split; [reflexivity|]]);
      unfold FixedWidth.has_badval; simpl; rewrite Hgt; reflexivity.
Qed.

Lemma C1_bad_bid_rejected_witness :
  SelfDelim.parser line_bid2 = Some rec_bid2 /\
  SelfDelim.parse_pt_bo line_bid2 = Some (1, rec_bid2) /\
  FixedWidth.parser fixed_bid2 = Some fixed_rec_bid2 /\
  exists st out,
    FixedWidth.entry Parse_pt fixed_bid2 = Some (st, out) /\
    bid out = bid fixed_rec_bid2 /\
    st = if issued out >? rtime out then 1 else 2.
Proof.
  assert (H1 : SelfDelim.parser line_bid2 = Some rec_bid2)
    by (vm_compute; reflexivity).
  assert (H2 : FixedWidth.parser fixed_bid2 = Some fixed_rec_bid2)
    by (vm_compute; reflexivity).
  assert (Ha : bid rec_bid2 <> 0) by (simpl; discriminate).
  assert (Hb : bid rec_bid2 <> 1) by (simpl; discriminate).
  assert (Hc : bid fixed_rec_bid2 <> 0) by (simpl; discriminate).
  assert (Hd : bid fixed_rec_bid2 <> 1) by (simpl; discriminate).
  split; [exact H1|].
  split; [exact (proj1 (C1_bad_bid_rejected Parse_pt_bo _ _ Ha Hb) H1)|].
  split; [exact H2|].
  exact (proj2 (C1_bad_bid_rejected Parse_pt _ _ Hc Hd) H2).
Defined.

(** C1, as stated, fails: with a bid of 2, [parse_pt] and [parse] of
    [eve_parser.c] return status 0, and the entry points of the fixed-width
    variant return status 2. *)
Lemma C1_counterexample :
  SelfDelim.parser line_bid2
  = Some (mk_record 123 10000002 30000142 60003760 34 2 123456 1 100 100
            1171447200 90 127 0 1171515601) /\
  SelfDelim.parse_pt line_bid2
  = Some (0, mk_record 123 10000002 30000142 60003760 34 2 123456 1 100 100
               1171476000 90 127 0 1171544401) /\
  SelfDelim.parse line_bid2
  = Some (0, mk_record 123 10000002 30000142 60003760 34 2 123456 1 100 100
               1171447200 90 127 0 1171515601) /\
  FixedWidth.parser fixed_bid2
  = Some (mk_record 1 2 3 4 5 2 1050 1 1 1 1133308800 90 5 7 1164844800) /\
  FixedWidth.parse_pt fixed_bid2
  = Some (2, mk_record 1 2 3 4 5 2 1050 1 1 1 1133337600 90 5 7 1164873600).
Proof. repeat (split; [vm_compute; reflexivity|]). vm_compute; reflexivity. Qed.

(** ** Timezone correction and validation *)

(** C3, as the code has it.  In [eve_parser.c], [parse_pt_bo] and
    [parse_pt] correct the two timestamps only when validation passes: with
    status 1 issued and rtime are returned as assembled, otherwise the
    status is 0 and both went through [pt_to_utc].  In the fixed-width
    variant the two entry points correct both timestamps before they
    validate, so the record carries corrected timestamps whatever the
    status. *)
Theorem C3_correction_and_validation (str : string) (rec out : raw_record)
    (st : Z) :
  (SelfDelim.parser str = Some rec ->
   SelfDelim.parse_pt_bo str = Some (st, out) \/
   SelfDelim.parse_pt str = Some (st, out) ->
   (st = 1 -> issued out = issued rec /\ rtime out = rtime rec) /\
   (st <> 1 ->
    st = 0 /\ issued out = pt_to_utc (issued rec) /\
    rtime out = pt_to_utc (rtime rec))) /\
  (FixedWidth.parser str = Some rec ->
   FixedWidth.parse_pt_bo str = Some (st, out) \/
   FixedWidth.parse_pt str = Some (st, out) ->
   issued out = pt_to_utc (issued rec) /\
   rtime out = pt_to_utc (rtime rec)).
Proof.
  split; intros E H.
  - unfold SelfDelim.parse_pt_bo, SelfDelim.parse_pt in H.
    rewrite E in H. simpl in H.
    unfold SelfDelim.finish_pt_bo, SelfDelim.finish_pt in H.
    destruct H as [H|H];
      repeat match type of H with
      | context [if ?b then _ else _] => destruct b
      end;
      injection H as <- <-; simpl;
      (split; [intros Hst; try discriminate Hst; split; reflexivity
              |intros Hst; try (exfalso; apply Hst; reflexivity);
               repeat split; reflexivity]).
  - unfold FixedWidth.parse_pt_bo, FixedWidth.parse_pt in H.
    rewrite E in H. simpl in H.
    unfold FixedWidth.finish_pt_bo, FixedWidth.finish_pt in H.
    destruct H as [H|H];
      repeat match type of H with
      | context [if ?b then _ else _] => destruct b
      end;
      injection H as _ <-; simpl; split; reflexivity.
Qed.

Lemma C3_correction_and_validation_witness :
  SelfDelim.parser line_late = Some rec_late /\
  SelfDelim.parse_pt line_late = Some (1, rec_late) /\
  issued rec_late = 1137492000 /\
  rtime rec_late = 1137387601.
Proof.
  assert (H1 : SelfDelim.parser line_late = Some rec_late)
    by (vm_compute; reflexivity).
  assert (H2 : SelfDelim.parse_pt line_late = Some (1, rec_late))
    by (vm_compute; reflexivity).
  split; [exact H1|]. split; [exact H2|].
  exact (proj1 (proj1 (C3_correction_and_validation _ _ _ _) H1
                  (or_intror H2)) eq_refl).
Defined.

(** C3, as stated, fails on the fixed-width variant: on a line whose issued
    is after its rtime, [parse_pt] returns status 1 and both timestamps are
    8 hours ahead of the assembled ones. *)
Lemma C3_counterexample :
  FixedWidth.parser fixed_late
  = Some (mk_record 1 2 3 4 5 0 1050 1 1 1 1164844800 90 5 7 1133308800) /\
  FixedWidth.parse_pt fixed_late
  = Some (1, mk_record 1 2 3 4 5 0 1050 1 1 1 1164873600 90 5 7 1133337600) /\
  FixedWidth.parse_pt_bo fixed_late
  = Some (1, mk_record 1 2 3 4 5 0 1050 1 1 1 1164873600 90 5 7 1133337600).
Proof. repeat (split; [vm_compute; reflexivity|]). vm_compute; reflexivity. Qed.

(** ** Buy orders of the first epoch *)

(** The correction does not keep the order of two timestamps: across the
    first boundary the offset drops by an hour, and near 2^32 the sum wraps
    around. *)
Lemma pt_to_utc_not_monotone :
  pt_to_utc 1144033199 = 1144061999 /\
  pt_to_utc 1144033200 = 1144058400 /\
  pt_to_utc 4294967168 = 25072.
Proof. repeat split; vm_compute; reflexivity. Qed.

(** ** The minus sign of the range in [eve_parser.c] *)

Lemma skip_nondigits_at_digit (str : string) :
  isdigit (deref str) = true -> SelfDelim.skip_nondigits str = str.
Proof.
  destruct str as [|c t]; simpl; intros H; [reflexivity|].
  rewrite H. reflexivity.
Qed.

(** C10.  In [eve_parser.c], when the text of the range field has a minus
    sign in front of any digit, [parse_range] returns -1 and leaves the
    caller's cursor where it was, in front of the separators and the sign.
    The scan of [reportedby] that follows skips the sign and reads the first
    run of digits behind it (directly behind it when a digit follows the
    sign, as the 1 of -1), and [rtime] is assembled from the text behind
    that run. *)
Theorem C10_minus_leaves_cursor (str cur sep rest : string)
    (rec0 : raw_record) :
  SelfDelim.parser_front str = Some (rec0, cur) ->
  cur = (sep ++ String "-" rest)%string ->
  all_chars is_sep sep = true ->
  SelfDelim.parse_range cur = Some (-1, cur) /\
  exists reportedby after rtime tail,
    SelfDelim.parse_uint64 cur = Some (reportedby, after) /\
    SelfDelim.parse_uint64 rest = Some (reportedby, after) /\
    (isdigit (deref rest) = true ->
     scan_digits u64 0 rest = (reportedby, after)) /\
    SelfDelim.timestamp after = Some (rtime, tail) /\
    SelfDelim.parser str
    = Some (set_rtime (set_reportedby (set_range rec0 (-1)) reportedby) rtime).
Proof.
  intros Hfront -> Hsep.
  assert (Hrange : SelfDelim.parse_range (sep ++ String "-" rest)%string
                   = Some (-1, (sep ++ String "-" rest)%string)).
  { unfold SelfDelim.parse_range.
    rewrite (skip_to_sign_stops sep rest Hsep). reflexivity. }
  split; [exact Hrange|].
  destruct (scan_digits u64 0 (SelfDelim.skip_nondigits rest))
    as [reportedby after] eqn:Hscan.
  destruct (timestamp_total after) as (rtime & tail & Htime).
  exists reportedby, after, rtime, tail.
  assert (Hcur : SelfDelim.parse_uint64 (sep ++ String "-" rest)%string
                 = Some (reportedby, after)).
  { unfold SelfDelim.parse_uint64, SelfDelim.parse_num, lift.
    rewrite (skip_nondigits_sep sep rest Hsep), Hscan. reflexivity. }
  split; [exact Hcur|].
  split; [unfold SelfDelim.parse_uint64, SelfDelim.parse_num, lift;
          rewrite Hscan; reflexivity|].
  split; [intros Hd; rewrite <- (skip_nondigits_at_digit rest Hd) at 1;
          exact Hscan|].
  split; [exact Htime|].
  unfold SelfDelim.parser, run, bind. rewrite Hfront.
  unfold SelfDelim.parser_back, bind. rewrite Hrange, Hcur, Htime.
  reflexivity.
Qed.

Lemma C10_minus_leaves_cursor_witness :
  SelfDelim.parse_range (quoted "','-1','77','2006-01-16 05:00:01'")
  = Some (-1, quoted "','-1','77','2006-01-16 05:00:01'") /\
  exists reportedby after rtime tail,
    SelfDelim.parse_uint64 (quoted "','-1','77','2006-01-16 05:00:01'")
    = Some (reportedby, after) /\
    SelfDelim.parse_uint64 (quoted "1','77','2006-01-16 05:00:01'")
    = Some (reportedby, after) /\
    (isdigit (deref (quoted "1','77','2006-01-16 05:00:01'")) = true ->
     scan_digits u64 0 (quoted "1','77','2006-01-16 05:00:01'")
     = (reportedby, after)) /\
    SelfDelim.timestamp after = Some (rtime, tail) /\
    SelfDelim.parser line_minus
    = Some (set_rtime
              (set_reportedby
                 (set_range
                    (mk_record 123 10000002 30000142 60003760 34 0 123456 1
                       100 100 1137319200 90 0 0 0) (-1))
                 reportedby) rtime).
Proof.
  apply (C10_minus_leaves_cursor line_minus
           (quoted "','-1','77','2006-01-16 05:00:01'")
           (quoted "','")
           (quoted "1','77','2006-01-16 05:00:01'")).
  - vm_compute. reflexivity.
  - vm_compute. reflexivity.
  - vm_compute. reflexivity.
Defined.

(** On the sample line the range is -1, [reportedby] is the 1 of -1 instead
    of 77, and [rtime] is assembled from 77, 2006 and 01 as year, month and
    day. *)
Lemma minus_displaces_fields :
  SelfDelim.parser line_minus
  = Some (mk_record 123 10000002 30000142 60003760 34 0 123456 1 100 100
            1137319200 90 (-1) 1 1398312748) /\
  u32 (u32 (u32 (ejday 77 2006 1 + 16 * 3600) + 5 * 60) + 0) = 1398312748.
Proof. split; vm_compute; reflexivity. Qed.

(** ** Fractional seconds *)

(** C2.  The rounding of [eve_parser.c] never takes place: with a fraction
    of .600 behind the seconds, [rtime] is the same as without it, and a
    fraction behind [issued] is read as the duration and shifts every later
    field.  [parse_datetime] of the fixed-width variant rounds when the full
    stop stands right behind the first run of digits, and on a date with
    separators it stops at the first of them. *)
Theorem C2_fraction_not_rounded :
  SelfDelim.timestamp "2006-01-16 05:00:01"%string
  = Some (1137387601, EmptyString) /\
  SelfDelim.timestamp "2006-01-16 05:00:01.600"%string
  = Some (1137387601, ".600"%string) /\
  SelfDelim.parser line_buy_frac6
  = Some (mk_record 123 10000002 30000142 60003760 34 1 123456 1 100 100
            1137319200 90 127 0 1137387601) /\
  SelfDelim.parser line_issued_frac6
  = Some (mk_record 123 10000002 30000142 60003760 34 1 123456 1 100 100
            1137319200 600 0 32767 3263366444) /\
  FixedWidth.parse_datetime "2006-01-16 05:00:01.600"%string
  = Some (ejday 2006 0 0, "-01-16 05:00:01.600"%string) /\
  FixedWidth.parse_datetime "2006.600,"%string
  = Some (ejday 2006 0 0 + 1, ","%string) /\
  FixedWidth.parse_datetime "2006.500,"%string
  = Some (ejday 2006 0 0, ","%string).
Proof. repeat (split; [vm_compute; reflexivity|]). vm_compute; reflexivity. Qed.

(** ** Lines on which [eve_parser.c] stays inside the text *)

(** The only step of the assembler of [eve_parser.c] that can pass the
    terminator is the read of the first cent behind a full stop.  A line
    without a full stop right in front of a terminator is therefore
    assembled, and each entry point returns a status for it. *)

Lemma no_final_dot_tail (c : ascii) (t : string) :
  no_final_dot (String c t) = true -> no_final_dot t = true.
Proof. simpl. intros H. apply andb_prop in H. tauto. Qed.

Lemma skip_nondigits_inside (str : string) :
  no_final_dot str = true ->
  no_final_dot (SelfDelim.skip_nondigits str) = true.
Proof.
  induction str as [|c t IH]; intros H; [exact H|].
  simpl. destruct (negb (isdigit c) && negb (is_nul c)); [|exact H].
  apply IH. exact (no_final_dot_tail c t H).
Qed.

Lemma skip_to_sign_inside (str : string) :
  no_final_dot str = true ->
  no_final_dot (SelfDelim.skip_to_sign str) = true.
Proof.
  induction str as [|c t IH]; intros H; [exact H|].
  simpl.
  destruct (negb (isdigit c) && negb (is_nul c) && negb (c =? "-")%char);
    [|exact H].
  apply IH. exact (no_final_dot_tail c t H).
Qed.

Lemma scan_digits_inside (wrap : Z -> Z) (str : string) (val : Z) :
  no_final_dot str = true ->
  no_final_dot (snd (scan_digits wrap val str)) = true.
Proof.
  revert val. induction str as [|c t IH]; intros val H; [exact H|].
  simpl. destruct (isdigit c); [|exact H].
  apply IH. exact (no_final_dot_tail c t H).
Qed.

Lemma stays_inside_ret {A : Type} (a : A) : stays_inside (ret a).
Proof. intros str H. exists a, str. split; [reflexivity|exact H]. Qed.

Lemma stays_inside_bind {A B : Type} (m : Scan A) (f : A -> Scan B) :
  stays_inside m -> (forall a, stays_inside (f a)) ->
  stays_inside (bind m f).
Proof.
  intros Hm Hf str H. unfold bind.
  destruct (Hm str H) as (a & rest & -> & Hrest).
  exact (Hf a rest Hrest).
Qed.

Lemma stays_inside_peek : stays_inside peek.
Proof.
  intros str H. exists (deref str), str. split; [reflexivity|exact H].
Qed.

Lemma stays_inside_parse_num (wrap : Z -> Z) :
  stays_inside (SelfDelim.parse_num wrap).
Proof.
  intros str H. unfold SelfDelim.parse_num, lift.
  pose proof (scan_digits_inside wrap (SelfDelim.skip_nondigits str) 0
                (skip_nondigits_inside str H)) as Hin.
  destruct (scan_digits wrap 0 (SelfDelim.skip_nondigits str)) as [v rest].
  exists v, rest. split; [reflexivity|exact Hin].
Qed.

Lemma isdigit_not_nul (c : ascii) : isdigit c = true -> is_nul c = false.
Proof.
  unfold is_nul. destruct (Ascii.eqb_spec c "000"%char) as [->|_];
    [discriminate|reflexivity].
Qed.

Lemma stays_inside_cents (price : Z) : stays_inside (SelfDelim.cents price).
Proof.
  intros str H. unfold SelfDelim.cents, bind, peek.
  destruct (Ascii.eqb_spec (deref str) "."%char) as [Hdot|_];
    [|apply stays_inside_ret; exact H].
  destruct str as [|c t]; [discriminate Hdot|].
  simpl in Hdot. subst c. simpl in H. apply andb_prop in H.
  destruct H as [Hnul Ht]. simpl.
  destruct t as [|c1 t1]; [discriminate Hnul|].
  simpl in Hnul. apply negb_true_iff in Hnul.
  unfold bump at 1. rewrite Hnul.
  pose proof (no_final_dot_tail c1 t1 Ht) as Ht1.
  destruct (isdigit (deref t1)) eqn:Hd; [|apply stays_inside_ret; exact Ht1].
  destruct t1 as [|c2 t2]; [discriminate Hd|].
  simpl in Hd. unfold bump. rewrite (isdigit_not_nul c2 Hd).
  apply stays_inside_ret. exact (no_final_dot_tail c2 t2 Ht1).
Qed.

Lemma stays_inside_timestamp : stays_inside SelfDelim.timestamp.
Proof.
  unfold SelfDelim.timestamp, SelfDelim.parse_int.
  repeat (apply stays_inside_bind;
          [first [apply stays_inside_parse_num|apply stays_inside_peek]
          |intros ?]).
  match goal with
  | |- stays_inside (if ?b then _ else _) => destruct b
  end; apply stays_inside_ret.
Qed.

Lemma stays_inside_parse_range : stays_inside SelfDelim.parse_range.
Proof.
  intros str H. unfold SelfDelim.parse_range.
  destruct (deref (SelfDelim.skip_to_sign str) =? "-")%char.
  - exists (-1), str. split; [reflexivity|exact H].
  - apply (stays_inside_bind SelfDelim.parse_int);
      [apply stays_inside_parse_num|intros v; apply stays_inside_ret|].
    apply skip_to_sign_inside. exact H.
Qed.

Lemma stays_inside_parser :
  stays_inside (rec <- SelfDelim.parser_front ;; SelfDelim.parser_back rec).
Proof.
  apply stays_inside_bind.
  - unfold SelfDelim.parser_front, SelfDelim.parse_uint64,
      SelfDelim.parse_uint32, SelfDelim.parse_int.
    repeat (apply stays_inside_bind;
            [first [apply stays_inside_parse_num|apply stays_inside_cents
                   |apply stays_inside_timestamp]
            |intros ?]).
    apply stays_inside_ret.
  - intros rec. unfold SelfDelim.parser_back, SelfDelim.parse_uint64.
    repeat (apply stays_inside_bind;
            [first [apply stays_inside_parse_num
                   |apply stays_inside_parse_range
                   |apply stays_inside_timestamp]
            |intros ?]).
    apply stays_inside_ret.
Qed.

(** X16.  Every entry point of [eve_parser.c] returns a status, 0 or 1, on
    every line that has no full stop right in front of a terminator. *)
Lemma selfdelim_entry_total (p : Parser) (str : string) :
  no_final_dot str = true ->
  exists st out,
    SelfDelim.entry p str = Some (st, out) /\ (st = 0 \/ st = 1).
Proof.
  intros H.
  destruct (stays_inside_parser str H) as (rec & rest & E & _).
  assert (Hrec : SelfDelim.parser str = Some rec)
    by (unfold SelfDelim.parser, run; rewrite E; reflexivity).
  destruct (proj1 (entry_defined p str rec) Hrec) as (st & out & Hentry).
  exists st, out. split; [exact Hentry|].
  exact (selfdelim_status p str st out Hentry).
Qed.

(** With a full stop right in front of the terminator the read of the first
    cent passes the terminator: such a run has no result. *)
Lemma selfdelim_final_dot_leaves_line :
  SelfDelim.parser "1,2,3,4,5,0,12."%string = None.
Proof. vm_compute. reflexivity. Qed.

(** * Further properties of the code *)

(** ** The numeric scanners *)

Lemma u64_step (a b : Z) : u64 (u64 a * 10 + b) = u64 (a * 10 + b).
Proof.
  unfold u64. rewrite (Z.mod_eq a 18446744073709551616) by lia.
  replace ((a - 18446744073709551616 * (a / 18446744073709551616)) * 10 + b)
    with (a * 10 + b
          + (-10 * (a / 18446744073709551616)) * 18446744073709551616)
    by lia.
  apply Z_mod_plus_full.
Qed.

Lemma u32_step (a b : Z) : u32 (u32 a * 10 + b) = u32 (a * 10 + b).
Proof.
  unfold u32. rewrite (Z.mod_eq a 4294967296) by lia.
  replace ((a - 4294967296 * (a / 4294967296)) * 10 + b)
    with (a * 10 + b + (-10 * (a / 4294967296)) * 4294967296) by lia.
  apply Z_mod_plus_full.
Qed.

Lemma i32_step (a b : Z) : i32 (i32 a * 10 + b) = i32 (a * 10 + b).
Proof.
  unfold i32. f_equal.
  rewrite (Z.mod_eq (a + 2147483648) 4294967296) by lia.
  replace ((a + 2147483648
            - 4294967296 * ((a + 2147483648) / 4294967296) - 2147483648)
           * 10 + b + 2147483648)
    with (a * 10 + b + 2147483648
          + (-10 * ((a + 2147483648) / 4294967296)) * 4294967296) by lia.
  apply Z_mod_plus_full.
Qed.

(** The digit loop on a run of digits: the wrap-around of every step
    amounts to one reduction of the decimal value. *)
Lemma scan_digits_value (wrap : Z -> Z) (ds rest : string) :
  (forall a b, wrap (wrap a * 10 + b) = wrap (a * 10 + b)) ->
  all_chars isdigit ds = true ->
  isdigit (deref rest) = false ->
  forall v,
    scan_digits wrap (wrap v) (ds ++ rest)
    = (wrap (decimal_from v ds), rest).
Proof.
  intros Hstep Hds Hrest.
  induction ds as [|c t IH]; intros v.
  - simpl. destruct rest as [|r rest']; [reflexivity|].
    simpl in Hrest. simpl. rewrite Hrest. reflexivity.
  - simpl in Hds. apply andb_prop in Hds. destruct Hds as [Hc Ht].
    simpl. rewrite Hc.
    replace (wrap v * 10 + code c - 48) with (wrap v * 10 + (code c - 48))
      by lia.
    rewrite Hstep. apply IH. exact Ht.
Qed.

Lemma skip_nondigits_blank (sep rest : string) :
  all_chars is_blank sep = true ->
  is_blank (deref rest) = false ->
  SelfDelim.skip_nondigits (sep ++ rest) = rest.
Proof.
  intros Hsep Hrest. induction sep as [|c t IH].
  - simpl. destruct rest as [|r rest']; [reflexivity|].
    simpl in Hrest. unfold is_blank in Hrest. simpl. rewrite Hrest.
    reflexivity.
  - simpl in Hsep. apply andb_prop in Hsep. destruct Hsep as [Hc Ht].
    unfold is_blank in Hc. simpl. rewrite Hc. apply IH. exact Ht.
Qed.

Lemma decimal_from_nonneg (ds : string) (v : Z) :
  all_chars isdigit ds = true -> 0 <= v -> 0 <= decimal_from v ds.
Proof.
  revert v. induction ds as [|c t IH]; intros v Hds Hv; [exact Hv|].
  simpl in Hds. apply andb_prop in Hds. destruct Hds as [Hc Ht].
  simpl. apply IH; [exact Ht|].
  unfold isdigit in Hc. apply andb_prop in Hc. lia.
Qed.

Lemma digit_run_head (ds rest : string) :
  all_chars isdigit ds = true -> ds <> EmptyString ->
  is_blank (deref (ds ++ rest)) = false.
Proof.
  destruct ds as [|c t]; [congruence|]. simpl. intros H _.
  apply andb_prop in H. destruct H as [Hc _]. unfold is_blank.
  rewrite Hc. reflexivity.
Qed.

(** X1.  A numeric scanner of [eve_parser.c] skips any run of bytes that
    are neither digits nor the terminator, reads the run of digits behind
    it and stops in front of the next byte; the value is the decimal value
    of the run reduced to the type of the scanner (64 or 32 bits unsigned,
    or [int]), so a run too long for the type wraps around instead of
    failing.  The scanner of the fixed-width variant does the same on a run
    under the cursor. *)
Theorem scanner_reads_decimal (sep ds rest : string) :
  all_chars is_blank sep = true ->
  all_chars isdigit ds = true ->
  ds <> EmptyString ->
  isdigit (deref rest) = false ->
  SelfDelim.parse_uint64 (sep ++ ds ++ rest)%string
  = Some (u64 (decimal ds), rest) /\
  SelfDelim.parse_uint32 (sep ++ ds ++ rest)%string
  = Some (u32 (decimal ds), rest) /\
  SelfDelim.parse_int (sep ++ ds ++ rest)%string
  = Some (i32 (decimal ds), rest) /\
  FixedWidth.parse_uint64 (ds ++ rest)%string
  = Some (u64 (decimal ds), rest) /\
  (decimal ds < 4294967296 -> u32 (decimal ds) = decimal ds) /\
  (decimal ds < 2147483648 -> i32 (decimal ds) = decimal ds) /\
  (decimal ds < 18446744073709551616 -> u64 (decimal ds) = decimal ds).
Proof.
  intros Hsep Hds Hne Hrest.
  pose proof (decimal_from_nonneg ds 0 Hds (Z.le_refl 0)) as Hpos.
  fold (decimal ds) in Hpos.
  unfold SelfDelim.parse_uint64, SelfDelim.parse_uint32, SelfDelim.parse_int,
    SelfDelim.parse_num, FixedWidth.parse_uint64, lift.
  rewrite (skip_nondigits_blank sep (ds ++ rest) Hsep
             (digit_run_head ds rest Hds Hne)).
  unfold decimal.
  repeat split.
  - exact (f_equal Some (scan_digits_value u64 ds rest u64_step Hds Hrest 0)).
  - exact (f_equal Some (scan_digits_value u32 ds rest u32_step Hds Hrest 0)).
  - exact (f_equal Some (scan_digits_value i32 ds rest i32_step Hds Hrest 0)).
  - exact (f_equal Some (scan_digits_value u64 ds rest u64_step Hds Hrest 0)).
  - intros H. apply u32_small. unfold decimal in Hpos. lia.
  - intros H. unfold i32. unfold decimal in Hpos.
    rewrite Z.mod_small by lia. lia.
  - intros H. unfold u64. apply Z.mod_small. unfold decimal in Hpos. lia.
Qed.

Lemma scanner_reads_decimal_witness :
  SelfDelim.parse_uint32 (quoted "','10000002','3'")
  = Some (10000002, quoted "','3'") /\
  SelfDelim.parse_uint32 ",99999999999,"%string
  = Some (u32 99999999999, ","%string).
Proof.
  assert (Hne1 : "10000002"%string <> EmptyString) by discriminate.
  assert (Hne2 : "99999999999"%string <> EmptyString) by discriminate.
  split.
  - destruct (scanner_reads_decimal (quoted "','") "10000002"
                (quoted "','3'") eq_refl eq_refl Hne1 eq_refl)
      as (_ & H & _ & _ & Hsmall & _).
    rewrite (Hsmall eq_refl) in H. exact H.
  - exact (proj1 (proj2 (scanner_reads_decimal "," "99999999999" ","
                           eq_refl eq_refl Hne2 eq_refl))).
Defined.

Lemma parse_num_decimal (wrap : Z -> Z) (sep ds rest : string) :
  (forall a b, wrap (wrap a * 10 + b) = wrap (a * 10 + b)) ->
  wrap 0 = 0 ->
  all_chars is_blank sep = true ->
  all_chars isdigit ds = true ->
  ds <> EmptyString ->
  isdigit (deref rest) = false ->
  SelfDelim.parse_num wrap (sep ++ ds ++ rest)%string
  = Some (wrap (decimal ds), rest).
Proof.
  intros Hstep H0 Hsep Hds Hne Hrest. unfold SelfDelim.parse_num, lift.
  rewrite (skip_nondigits_blank sep (ds ++ rest) Hsep
             (digit_run_head ds rest Hds Hne)).
  rewrite <- H0 at 1.
  rewrite (scan_digits_value wrap ds rest Hstep Hds Hrest 0). reflexivity.
Qed.

Lemma skip_nondigits_all_blank (str : string) :
  all_chars is_blank str = true ->
  SelfDelim.skip_nondigits str = EmptyString.
Proof.
  induction str as [|c t IH]; intros H; [reflexivity|].
  simpl in H. apply andb_prop in H. destruct H as [Hc Ht].
  unfold is_blank in Hc. simpl. rewrite Hc. exact (IH Ht).
Qed.

Lemma bind_congr {A B : Type} (m : Scan A) (f : A -> Scan B)
    (str str' : string) :
  m str = m str' -> bind m f str = bind m f str'.
Proof. unfold bind. intros ->. reflexivity. Qed.

(** X2.  A line without a digit is not an error for [eve_parser.c]: the
    first scanner runs to the end of the text, every field is read as 0,
    both timestamps are [ejday 0 0 0], and every entry point accepts the
    record with status 0. *)
Theorem line_without_digits_accepted (p : Parser) (str : string) :
  all_chars is_blank str = true ->
  SelfDelim.parse_uint64 str = Some (0, EmptyString) /\
  SelfDelim.parser str = Some blank_record /\
  SelfDelim.parse str = Some (0, blank_record) /\
  exists out,
    SelfDelim.entry p str = Some (0, out) /\
    range out = 0 /\ bid out = 0 /\ issued out = rtime out.
Proof.
  intros Hblank.
  assert (Hfirst : SelfDelim.parse_uint64 str = Some (0, EmptyString)).
  { unfold SelfDelim.parse_uint64, SelfDelim.parse_num, lift.
    rewrite (skip_nondigits_all_blank str Hblank). reflexivity. }
  assert (Hfront : SelfDelim.parser_front str
                   = SelfDelim.parser_front EmptyString).
  { apply bind_congr. rewrite Hfirst. reflexivity. }
  assert (Hparser : SelfDelim.parser str = Some blank_record).
  { unfold SelfDelim.parser, run.
    rewrite (bind_congr SelfDelim.parser_front _ str EmptyString Hfront).
    vm_compute. reflexivity. }
  split; [exact Hfirst|]. split; [exact Hparser|].
  split; [unfold SelfDelim.parse; rewrite Hparser; vm_compute; reflexivity|].
  destruct p; simpl;
    unfold SelfDelim.parse_pt_bo, SelfDelim.parse_pt, SelfDelim.parse;
    rewrite Hparser; eexists; (split; [vm_compute; reflexivity|]);
    repeat split; vm_compute; reflexivity.
Qed.

Lemma line_without_digits_accepted_witness :
  SelfDelim.parse (quoted "'','',  ; -- ..") = Some (0, blank_record).
Proof.
  exact (proj1 (proj2 (proj2
    (line_without_digits_accepted Parse (quoted "'','',  ; -- ..")
       eq_refl)))).
Defined.

(** ** The price *)

Lemma digit_value (c : ascii) : isdigit c = true -> 0 <= code c - 48 <= 9.
Proof. unfold isdigit. intros H. apply andb_prop in H. lia. Qed.

Lemma decimal_nonneg (ds : string) :
  all_chars isdigit ds = true -> 0 <= decimal ds.
Proof. intros H. exact (decimal_from_nonneg ds 0 H (Z.le_refl 0)). Qed.

(** X3.  The price is the whole part times 100 plus the cents: with two
    digits behind the full stop both are added and the cursor is left
    behind the second, whatever follows (a third digit is not consumed);
    with one digit ten times that digit is added; without a full stop
    nothing is added.  Both variants agree, as long as the price fits
    64 bits. *)
Theorem price_field_value (sep ds rest : string) (c1 c2 : ascii) :
  all_chars is_blank sep = true ->
  all_chars isdigit ds = true ->
  ds <> EmptyString ->
  decimal ds * 100 + 99 < 18446744073709551616 ->
  isdigit c1 = true ->
  (isdigit c2 = true ->
   price_field (sep ++ ds ++ String "." (String c1 (String c2 rest)))%string
   = Some (decimal ds * 100 + (code c1 - 48) * 10 + (code c2 - 48), rest) /\
   fixed_price_field (ds ++ String "." (String c1 (String c2 rest)))%string
   = Some (decimal ds * 100 + (code c1 - 48) * 10 + (code c2 - 48), rest)) /\
  (isdigit (deref rest) = false ->
   price_field (sep ++ ds ++ String "." (String c1 rest))%string
   = Some (decimal ds * 100 + (code c1 - 48) * 10, rest) /\
   fixed_price_field (ds ++ String "." (String c1 rest))%string
   = Some (decimal ds * 100 + (code c1 - 48) * 10, rest)) /\
  (isdigit (deref rest) = false -> (deref rest =? ".")%char = false ->
   price_field (sep ++ ds ++ rest)%string = Some (decimal ds * 100, rest) /\
   fixed_price_field (ds ++ rest)%string = Some (decimal ds * 100, rest)).
Proof.
  intros Hsep Hds Hne Hfit Hc1.
  pose proof (decimal_nonneg ds Hds) as Hpos.
  pose proof (digit_value c1 Hc1) as Hd1.
  pose proof (isdigit_not_nul c1 Hc1) as Hn1.
  assert (Hwhole : u64 (u64 (decimal ds) * 100) = decimal ds * 100).
  { unfold u64. rewrite (Z.mod_small (decimal ds)) by lia.
    apply Z.mod_small. lia. }
  assert (Hscan : forall tail, isdigit (deref tail) = false ->
            SelfDelim.parse_uint64 (sep ++ ds ++ tail)%string
            = Some (u64 (decimal ds), tail) /\
            FixedWidth.parse_uint64 (ds ++ tail)%string
            = Some (u64 (decimal ds), tail)).
  { intros tail Htail. split.
    - exact (parse_num_decimal u64 sep ds tail u64_step eq_refl Hsep Hds Hne
               Htail).
    - unfold FixedWidth.parse_uint64, lift.
      exact (f_equal Some
               (scan_digits_value u64 ds tail u64_step Hds Htail 0)). }
  split; [|split].
  - intros Hc2.
    pose proof (digit_value c2 Hc2) as Hd2.
    pose proof (isdigit_not_nul c2 Hc2) as Hn2.
    destruct (Hscan (String "." (String c1 (String c2 rest))) eq_refl)
      as [Hs Hf].
    unfold price_field, fixed_price_field, bind. rewrite Hs, Hf, Hwhole.
    unfold SelfDelim.cents, FixedWidth.cents, bind, peek, bump, ret. simpl.
    rewrite Hn1. simpl. rewrite Hc2. simpl. rewrite Hn2. unfold u64, u32.
    rewrite (Z.mod_small (code c1 - 48)) by lia.
    rewrite (Z.mod_small ((code c1 - 48) * 10)) by lia.
    rewrite (Z.mod_small (code c2 - 48)) by lia.
    rewrite (Z.mod_small (decimal ds * 100 + (code c1 - 48) * 10)) by lia.
    rewrite Z.mod_small by lia. split; reflexivity.
  - intros Hrest.
    destruct (Hscan (String "." (String c1 rest)) eq_refl) as [Hs Hf].
    unfold price_field, fixed_price_field, bind. rewrite Hs, Hf, Hwhole.
    unfold SelfDelim.cents, FixedWidth.cents, bind, peek, bump, ret. simpl.
    rewrite Hn1. simpl. rewrite Hrest. unfold u64, u32.
    rewrite (Z.mod_small (code c1 - 48)) by lia.
    rewrite (Z.mod_small ((code c1 - 48) * 10)) by lia.
    rewrite Z.mod_small by lia. split; reflexivity.
  - intros Hrest Hdot.
    destruct (Hscan rest Hrest) as [Hs Hf].
    unfold price_field, fixed_price_field, bind. rewrite Hs, Hf, Hwhole.
    unfold SelfDelim.cents, FixedWidth.cents, bind, peek, ret.
    rewrite Hdot. split; reflexivity.
Qed.

Lemma price_field_value_witness :
  price_field (quoted "','1234.567','1'") = Some (123456, quoted "7','1'") /\
  price_field (quoted "','1234.5','1'") = Some (123450, quoted "','1'") /\
  price_field (quoted "','1234','1'") = Some (123400, quoted "','1'").
Proof.
  assert (Hne : "1234"%string <> EmptyString) by discriminate.
  assert (Hfit : decimal "1234" * 100 + 99 < 18446744073709551616)
    by (vm_compute; reflexivity).
  split; [|split].
  - exact (proj1 (proj1 (price_field_value (quoted "','") "1234"
             (quoted "7','1'") "5" "6" eq_refl eq_refl Hne Hfit eq_refl)
             eq_refl)).
  - exact (proj1 (proj1 (proj2 (price_field_value (quoted "','") "1234"
             (quoted "','1'") "5" "0" eq_refl eq_refl Hne Hfit eq_refl))
             eq_refl)).
  - exact (proj1 (proj2 (proj2 (price_field_value (quoted "','") "1234"
             (quoted "','1'") "5" "0" eq_refl eq_refl Hne Hfit eq_refl))
             eq_refl eq_refl)).
Defined.

(** ** The calendar of [ejday] *)

Lemma ejday_no_wrap (y m d : Z) :
  1970 <= y <= 2105 -> 1 <= m <= 12 -> 1 <= d <= 31 ->
  ejday y m d = ejday_days y m d * 86400 /\
  0 <= ejday_days y m d <= 49710.
Proof.
  intros Hy Hm Hd. unfold ejday, ejday_days, E_JDAY, SEC_PER_DAY.
  rewrite (u32_small (m * 306 + 5)) by lia.
  assert (Hb : 0 <= y * 365 + y / 4 - y / 100 + y / 400
               + (m * 306 + 5) / 10 + d - 1 - 719558 <= 49710).
  { pose proof (Z.div_mod y 4). pose proof (Z.mod_pos_bound y 4).
    pose proof (Z.div_mod y 100). pose proof (Z.mod_pos_bound y 100).
    pose proof (Z.div_mod y 400). pose proof (Z.mod_pos_bound y 400).
    pose proof (Z.div_mod (m * 306 + 5) 10).
    pose proof (Z.mod_pos_bound (m * 306 + 5) 10).
    lia. }
  split; [apply u32_small; lia|exact Hb].
Qed.

(** X4.  For the dates of 1970 to 2105 [ejday] does not wrap around: it is
    86400 times a day number between 0 and 49710.  The next day of a month
    is 86400 seconds later, and the same day of the next month is 30 or 31
    days later, February included. *)
Theorem ejday_steps (y m d : Z) :
  1970 <= y <= 2105 -> 1 <= m <= 12 -> 1 <= d <= 31 ->
  ejday y m d = ejday_days y m d * 86400 /\
  0 <= ejday y m d <= 49710 * 86400 /\
  (d < 31 -> ejday y m (d + 1) = ejday y m d + 86400) /\
  (m < 12 ->
   ejday y (m + 1) d = ejday y m d + 30 * 86400 \/
   ejday y (m + 1) d = ejday y m d + 31 * 86400).
Proof.
  intros Hy Hm Hd.
  destruct (ejday_no_wrap y m d Hy Hm Hd) as [He Hb].
  split; [exact He|]. split; [lia|]. split.
  - intros Hd'. destruct (ejday_no_wrap y m (d + 1) Hy Hm) as [He' _];
      [lia|]. rewrite He', He. unfold ejday_days. lia.
  - intros Hm'. destruct (ejday_no_wrap y (m + 1) d Hy) as [He' _];
      [lia|exact Hd|]. rewrite He', He. unfold ejday_days.
    pose proof (Z.div_mod (m * 306 + 5) 10).
    pose proof (Z.mod_pos_bound (m * 306 + 5) 10).
    pose proof (Z.div_mod ((m + 1) * 306 + 5) 10).
    pose proof (Z.mod_pos_bound ((m + 1) * 306 + 5) 10).
    lia.
Qed.

Lemma ejday_steps_witness :
  ejday 2007 2 1 = ejday 2007 1 1 + 30 * 86400 \/
  ejday 2007 2 1 = ejday 2007 1 1 + 31 * 86400.
Proof.
  assert (Hy : 1970 <= 2007 <= 2105) by lia.
  assert (Hm : 1 <= 1 <= 12) by lia.
  assert (Hd : 1 <= 1 <= 31) by lia.
  assert (Hlt : 1 < 12) by lia.
  exact (proj2 (proj2 (proj2 (ejday_steps 2007 1 1 Hy Hm Hd))) Hlt).
Defined.

Lemma leap_year_days (y : Z) :
  0 <= y ->
  (y + 1) / 4 - (y + 1) / 100 + (y + 1) / 400
  = y / 4 - y / 100 + y / 400 + (if leap_year (y + 1) then 1 else 0).
Proof.
  intros Hy. unfold leap_year.
  pose proof (Z.div_mod y 4). pose proof (Z.mod_pos_bound y 4).
  pose proof (Z.div_mod y 100). pose proof (Z.mod_pos_bound y 100).
  pose proof (Z.div_mod y 400). pose proof (Z.mod_pos_bound y 400).
  pose proof (Z.div_mod (y + 1) 4). pose proof (Z.mod_pos_bound (y + 1) 4).
  pose proof (Z.div_mod (y + 1) 100).
  pose proof (Z.mod_pos_bound (y + 1) 100).
  pose proof (Z.div_mod (y + 1) 400).
  pose proof (Z.mod_pos_bound (y + 1) 400).
  destruct (Z.eqb_spec ((y + 1) mod 4) 0);
    destruct (Z.eqb_spec ((y + 1) mod 100) 0);
    destruct (Z.eqb_spec ((y + 1) mod 400) 0); simpl; lia.
Qed.

(** X5.  [ejday] is not monotone in the date: for the years 1970 to 2104,
    31 December falls on the same day as the following 1 January when that
    year is a leap year, and one day after it otherwise. *)
Theorem ejday_new_year (y : Z) :
  1970 <= y <= 2104 ->
  ejday y 12 31
  = ejday (y + 1) 1 1 + (if leap_year (y + 1) then 0 else 86400).
Proof.
  intros Hy.
  destruct (ejday_no_wrap y 12 31) as [He _]; try lia.
  destruct (ejday_no_wrap (y + 1) 1 1) as [He' _]; try lia.
  rewrite He, He'. unfold ejday_days, E_JDAY.
  pose proof (leap_year_days y) as Hl.
  change ((12 * 306 + 5) / 10) with 367.
  change ((1 * 306 + 5) / 10) with 31.
  destruct (leap_year (y + 1)); lia.
Qed.

Lemma ejday_new_year_witness :
  ejday 2006 12 31 = ejday 2007 1 1 + 86400.
Proof.
  assert (Hy : 1970 <= 2006 <= 2104) by lia.
  exact (ejday_new_year 2006 Hy).
Defined.

(** ** The dispatcher over the calendar *)

(** X6.  Over the dates of 1970 to 2105 the dispatcher selects by year,
    month and day as follows: [parse_pt_bo] up to 29 December 2006,
    [parse_pt] from 30 December 2006 to the end of September 2007, and
    [parse] from 1 October 2007 on. *)
Theorem parser_factory_by_date (y m d : Z) :
  1970 <= y <= 2105 -> 1 <= m <= 12 -> 1 <= d <= 31 ->
  parser_factory y m d
  = if (y <? 2006) || ((y =? 2006) && ((m <? 12) || (d <? 30)))
    then Parse_pt_bo
    else if (y <? 2007) || ((y =? 2007) && (m <? 10)) then Parse_pt
    else Parse.
Proof.
  intros Hy Hm Hd. unfold parser_factory, D20070101, D20071001.
  destruct (ejday_no_wrap y m d Hy Hm Hd) as [He _]. rewrite He.
  unfold ejday_days, E_JDAY.
  pose proof (Z.div_mod y 4). pose proof (Z.mod_pos_bound y 4).
  pose proof (Z.div_mod y 100). pose proof (Z.mod_pos_bound y 100).
  pose proof (Z.div_mod y 400). pose proof (Z.mod_pos_bound y 400).
  pose proof (Z.div_mod (m * 306 + 5) 10).
  pose proof (Z.mod_pos_bound (m * 306 + 5) 10).
  destruct (Z.ltb_spec y 2006); destruct (Z.eqb_spec y 2006);
    destruct (Z.ltb_spec m 12); destruct (Z.ltb_spec d 30);
    destruct (Z.ltb_spec y 2007); destruct (Z.eqb_spec y 2007);
    destruct (Z.ltb_spec m 10); simpl; try lia;
    match goal with
    | |- (if ?a <? ?b then _ else _) = _ =>
        destruct (Z.ltb_spec a b); try lia
    end;
    try reflexivity;
    match goal with
    | |- (if ?a <? ?b then _ else _) = _ =>
        destruct (Z.ltb_spec a b); try lia
    end; reflexivity.
Qed.

Lemma parser_factory_by_date_witness :
  parser_factory 2006 12 30 = Parse_pt /\
  parser_factory 2006 12 29 = Parse_pt_bo /\
  parser_factory 2105 12 31 = Parse.
Proof.
  assert (Hm : 1 <= 12 <= 12) by lia.
  split; [|split].
  - apply (parser_factory_by_date 2006 12 30); lia.
  - apply (parser_factory_by_date 2006 12 29); lia.
  - apply (parser_factory_by_date 2105 12 31); lia.
Defined.

(** ** Order of corrected timestamps *)

(** X7.  Below 2^32 - 8 hours the correction adds 7 or 8 hours without
    wrapping.  It can reverse the order of two timestamps, but by less than
    an hour: the earlier one is corrected to at most one hour after the
    later one, and two timestamps that are an hour or more apart keep their
    order. *)
Theorem pt_to_utc_order (t1 t2 : Z) :
  0 <= t1 -> t1 <= t2 -> t2 < 4294967296 - 28800 ->
  (pt_to_utc t1 = t1 + 25200 \/ pt_to_utc t1 = t1 + 28800) /\
  pt_to_utc t1 <= pt_to_utc t2 + 3600 /\
  (t1 + 3600 <= t2 -> pt_to_utc t1 <= pt_to_utc t2).
Proof.
  intros H1 H12 H2.
  rewrite (pt_to_utc_eq t1), (pt_to_utc_eq t2).
  destruct (Z.ltb_spec t1 1144033200); [|destruct (Z.ltb_spec t1 1162256400);
    [|destruct (Z.ltb_spec t1 1173754800)]];
  (destruct (Z.ltb_spec t2 1144033200); [|destruct (Z.ltb_spec t2 1162256400);
    [|destruct (Z.ltb_spec t2 1173754800)]]);
  rewrite !u32_small by lia; lia.
Qed.

Lemma pt_to_utc_order_witness :
  pt_to_utc 1144033199 <= pt_to_utc 1144033200 + 3600.
Proof.
  assert (H1 : 0 <= 1144033199) by lia.
  assert (H12 : 1144033199 <= 1144033200) by lia.
  assert (H2 : 1144033200 < 4294967296 - 28800) by lia.
  exact (proj1 (proj2 (pt_to_utc_order 1144033199 1144033200 H1 H12 H2))).
Defined.

(** ** The assembled record *)

Lemma scan_digits_range (wrap : Z -> Z) (lo hi : Z) (str : string) :
  (forall z, lo <= wrap z < hi) ->
  forall v, lo <= v < hi -> lo <= fst (scan_digits wrap v str) < hi.
Proof.
  intros Hwrap. induction str as [|c t IH]; intros v Hv; [exact Hv|].
  simpl. destruct (isdigit c); [|exact Hv]. apply IH. apply Hwrap.
Qed.

Lemma u64_range (z : Z) : 0 <= u64 z < 18446744073709551616.
Proof. unfold u64. apply Z.mod_pos_bound. lia. Qed.

Lemma u16_range (z : Z) : 0 <= u16 z < 65536.
Proof. unfold u16. apply Z.mod_pos_bound. lia. Qed.

Lemma parse_num_range (wrap : Z -> Z) (hi : Z) (str rest : string) (v : Z) :
  (forall z, 0 <= wrap z < hi) -> 0 < hi ->
  SelfDelim.parse_num wrap str = Some (v, rest) -> 0 <= v < hi.
Proof.
  intros Hwrap Hhi H. unfold SelfDelim.parse_num, lift in H.
  pose proof (scan_digits_range wrap 0 hi (SelfDelim.skip_nondigits str)
                Hwrap 0) as Hr.
  injection H as H. rewrite H in Hr. apply Hr. lia.
Qed.

Lemma fixed_parse_uint64_range (str rest : string) (v : Z) :
  FixedWidth.parse_uint64 str = Some (v, rest) ->
  0 <= v < 18446744073709551616.
Proof.
  intros H. unfold FixedWidth.parse_uint64, lift in H.
  pose proof (scan_digits_range u64 0 18446744073709551616 str u64_range 0)
    as Hr.
  injection H as H. rewrite H in Hr. apply Hr. lia.
Qed.

Lemma cents_range (price v : Z) (str rest : string) :
  0 <= price < 18446744073709551616 ->
  SelfDelim.cents price str = Some (v, rest) ->
  0 <= v < 18446744073709551616.
Proof.
  intros Hp H. unfold SelfDelim.cents, bind, peek in H.
  destruct (deref str =? ".")%char.
  - destruct (bump str) as [[u s1]|]; [|discriminate].
    destruct (bump s1) as [[u' s2]|]; [|discriminate].
    destruct (isdigit (deref s2)).
    + destruct (bump s2) as [[u'' s3]|]; [|discriminate].
      apply ret_inv in H. destruct H as [-> _]. apply u64_range.
    + apply ret_inv in H. destruct H as [-> _]. apply u64_range.
  - apply ret_inv in H. destruct H as [-> _]. exact Hp.
Qed.

Lemma fixed_cents_range (price v : Z) (str rest : string) :
  0 <= price < 18446744073709551616 ->
  FixedWidth.cents price str = Some (v, rest) ->
  0 <= v < 18446744073709551616.
Proof.
  intros Hp H. unfold FixedWidth.cents, bind, peek in H.
  destruct (deref str =? ".")%char.
  - destruct (bump str) as [[u s1]|]; [|discriminate].
    destruct (bump s1) as [[u' s2]|]; [|discriminate].
    destruct (isdigit (deref s2)).
    + destruct (bump s2) as [[u'' s3]|]; [|discriminate].
      apply ret_inv in H. destruct H as [-> _]. apply u64_range.
    + apply ret_inv in H. destruct H as [-> _]. apply u64_range.
  - apply ret_inv in H. destruct H as [-> _]. exact Hp.
Qed.

Lemma timestamp_range (str rest : string) (t : Z) :
  SelfDelim.timestamp str = Some (t, rest) -> 0 <= t < 4294967296.
Proof.
  unfold SelfDelim.timestamp. intros H. scan_inv H.
  match type of H with
  | context [if ?b then _ else _] => destruct b
  end; apply ret_inv in H; destruct H as [-> _]; apply u32_range.
Qed.

Lemma parse_datetime_range (str rest : string) (t : Z) :
  FixedWidth.parse_datetime str = Some (t, rest) -> 0 <= t < 4294967296.
Proof.
  unfold FixedWidth.parse_datetime. intros H. scan_inv H.
  match type of H with
  | context [if negb ?b then _ else _] => destruct b
  end; simpl in H.
  - scan_inv H. apply ret_inv in H. destruct H as [-> _].
    match goal with
    | |- context [if ?b then _ else _] => destruct b
    end; apply u32_range.
  - apply ret_inv in H. destruct H as [-> _]. apply u32_range.
Qed.

Lemma range_to_byte_codes (z : Z) :
  In (SelfDelim.range_to_byte z) range_codes.
Proof.
  destruct (Z.eq_dec z (-1)) as [->|Hm1]; [simpl; tauto|].
  destruct (Z.eq_dec z 0) as [->|H0]; [simpl; tauto|].
  destruct (Z.eq_dec z 5) as [->|H5]; [simpl; tauto|].
  destruct (Z.eq_dec z 10) as [->|H10]; [simpl; tauto|].
  destruct (Z.eq_dec z 20) as [->|H20]; [simpl; tauto|].
  destruct (Z.eq_dec z 40) as [->|H40]; [simpl; tauto|].
  destruct (Z.eq_dec z 32767) as [->|H32767]; [simpl; tauto|].
  destruct (Z.eq_dec z 65535) as [->|H65535]; [simpl; tauto|].
  rewrite range_to_byte_default by assumption. simpl. tauto.
Qed.

Lemma parse_range_codes (str rest : string) (v : Z) :
  SelfDelim.parse_range str = Some (v, rest) -> In v range_codes.
Proof.
  unfold SelfDelim.parse_range.
  destruct (deref (SelfDelim.skip_to_sign str) =? "-")%char.
  - intros H. injection H as <- _. simpl. tauto.
  - intros H. scan_inv H. apply ret_inv in H. destruct H as [-> _].
    apply range_to_byte_codes.
Qed.

Lemma fixed_parse_range_codes (str rest : string) (v : Z) :
  FixedWidth.parse_range str = Some (v, rest) -> In v range_codes.
Proof.
  unfold FixedWidth.parse_range, bind, peek.
  destruct (deref str =? "-")%char.
  - destruct (bump str) as [[u s1]|]; [|discriminate].
    unfold lift, ret. intros H. injection H as <- _. simpl. tauto.
  - destruct (FixedWidth.parse_uint64 str) as [[w s1]|]; [|discriminate].
    intros H. apply ret_inv in H. destruct H as [-> _].
    rewrite range_to_byte_unsigned by apply u32_range.
    apply range_to_byte_codes.
Qed.

Lemma parse_uint64_range (str rest : string) (v : Z) :
  SelfDelim.parse_uint64 str = Some (v, rest) ->
  0 <= v < 18446744073709551616.
Proof. apply parse_num_range; [exact u64_range|lia]. Qed.

Lemma parse_uint32_range (str rest : string) (v : Z) :
  SelfDelim.parse_uint32 str = Some (v, rest) -> 0 <= v < 4294967296.
Proof. apply parse_num_range; [exact u32_range|lia]. Qed.

Lemma pt_to_utc_range (t : Z) : 0 <= pt_to_utc t < 4294967296.
Proof. rewrite pt_to_utc_eq. apply u32_range. Qed.

Lemma selfdelim_parser_well_typed (str : string) (rec : raw_record) :
  SelfDelim.parser str = Some rec -> well_typed rec.
Proof.
  unfold SelfDelim.parser. intros H. apply run_inv in H. destruct H as [cur H].
  apply bind_inv in H. destruct H as (front & cur1 & Hfront & Hback).
  unfold SelfDelim.parser_front in Hfront. scan_inv Hfront.
  apply ret_inv in Hfront. destruct Hfront as [-> _].
  unfold SelfDelim.parser_back in Hback. scan_inv Hback.
  apply ret_inv in Hback. destruct Hback as [-> _].
  unfold well_typed. simpl.
  repeat match goal with
  | |- _ /\ _ => split
  end;
  first [ apply u8_range | apply u16_range
        | eapply parse_uint64_range; eassumption
        | eapply parse_uint32_range; eassumption
        | eapply timestamp_range; eassumption
        | eapply parse_range_codes; eassumption
        | eapply cents_range; [apply u64_range|eassumption] ].
Qed.

Lemma fixed_parser_well_typed (str : string) (rec : raw_record) :
  FixedWidth.parser str = Some rec -> well_typed rec.
Proof.
  unfold FixedWidth.parser. intros H. apply run_inv in H.
  destruct H as [cur H]. unfold FixedWidth.parser_scan in H. scan_inv H.
  apply ret_inv in H. destruct H as [-> _].
  unfold well_typed. simpl.
  repeat match goal with
  | |- _ /\ _ => split
  end;
  first [ apply u8_range | apply u16_range | apply u32_range
        | eapply fixed_parse_uint64_range; eassumption
        | eapply parse_datetime_range; eassumption
        | eapply fixed_parse_range_codes; eassumption
        | eapply fixed_cents_range; [apply u64_range|eassumption] ].
Qed.

(** ** Buy orders of the first epoch: the status *)

Lemma pt_to_utc_whole_days (a b : Z) :
  0 <= a -> 0 <= b ->
  a mod 86400 <= 1 -> b mod 86400 <= 1 ->
  a < D20070101 -> b < D20070101 ->
  (pt_to_utc a <= pt_to_utc b <-> a <= b).
Proof.
  unfold D20070101. intros Ha Hb Hra Hrb Hea Heb.
  rewrite (pt_to_utc_eq a), (pt_to_utc_eq b).
  pose proof (Z.div_mod a 86400). pose proof (Z.mod_pos_bound a 86400).
  pose proof (Z.div_mod b 86400). pose proof (Z.mod_pos_bound b 86400).
  destruct (Z.ltb_spec a 1144033200); [|destruct (Z.ltb_spec a 1162256400);
    [|destruct (Z.ltb_spec a 1173754800)]];
  (destruct (Z.ltb_spec b 1144033200); [|destruct (Z.ltb_spec b 1162256400);
    [|destruct (Z.ltb_spec b 1173754800)]]);
  rewrite !u32_small by lia; lia.
Qed.

(** C9.  When the assembled record has bid 1, [parse_pt_bo] leaves range
    -1 whatever range was parsed, and returns status 0 exactly when issued
    is not after rtime, status 1 otherwise.  In [eve_parser.c] the
    comparison is the one of the assembled timestamps.  In the fixed-width
    variant it is the one of the timestamps in the record that is returned,
    which are the corrected ones; for timestamps of the first epoch (before
    2007-01-01) that are whole days up to the rounding second, it is also
    the one of the assembled timestamps. *)
Theorem C9_buy_order_range_forced (str : string) (rec : raw_record) :
  bid rec = 1 ->
  (SelfDelim.parser str = Some rec ->
   exists st out,
     SelfDelim.parse_pt_bo str = Some (st, out) /\
     range out = -1 /\
     (st = 0 \/ st = 1) /\
     (st = 0 <-> issued rec <= rtime rec)) /\
  (FixedWidth.parser str = Some rec ->
   exists st out,
     FixedWidth.parse_pt_bo str = Some (st, out) /\
     range out = -1 /\
     (st = 0 \/ st = 1) /\
     (st = 0 <-> pt_to_utc (issued rec) <= pt_to_utc (rtime rec)) /\
     (st = 0 <-> issued out <= rtime out) /\
     (issued rec mod 86400 <= 1 -> rtime rec mod 86400 <= 1 ->
      issued rec < D20070101 -> rtime rec < D20070101 ->
      (st = 0 <-> issued rec <= rtime rec))).
Proof.
  intros Hbid. split; intros E.
  - unfold SelfDelim.parse_pt_bo. rewrite E. simpl.
    unfold SelfDelim.finish_pt_bo. rewrite Hbid. simpl.
    destruct (Z.gtb_spec (issued rec) (rtime rec)) as [Hgt|Hle];
      eexists; eexists; (split; [reflexivity|]); simpl;
      (split; [reflexivity|]); split; try tauto; split; intros H; try lia;
      try discriminate H; reflexivity.
  - pose proof (fixed_parser_well_typed str rec E) as Hwt.
    unfold well_typed in Hwt.
    assert (Hi : 0 <= issued rec) by tauto.
    assert (Hr : 0 <= rtime rec) by tauto.
    clear Hwt.
    unfold FixedWidth.parse_pt_bo. rewrite E. simpl.
    unfold FixedWidth.finish_pt_bo. rewrite Hbid. simpl.
    unfold FixedWidth.has_badval. simpl. rewrite Hbid. simpl.
    destruct (Z.gtb_spec (pt_to_utc (issued rec)) (pt_to_utc (rtime rec)))
      as [Hgt|Hle];
      eexists; eexists; (split; [reflexivity|]);
      (split; [reflexivity|]); (split; [tauto|]);
      (split; [split; intros H; try lia; try discriminate H; reflexivity|]);
      (split; [simpl; split; intros H; try lia; try discriminate H;
               reflexivity|]);
      intros Hdi Hdr Hei Her;
      pose proof (pt_to_utc_whole_days (issued rec) (rtime rec)
                    Hi Hr Hdi Hdr Hei Her) as Hord;
      split; intros H; try lia; try discriminate H; reflexivity.
Qed.

Lemma C9_buy_order_range_forced_witness :
  (exists rec st out,
     SelfDelim.parser line_buy = Some rec /\
     bid rec = 1 /\
     SelfDelim.parse_pt_bo line_buy = Some (st, out) /\
     range out = -1 /\
     (st = 0 <-> issued rec <= rtime rec)) /\
  (exists rec st out,
     FixedWidth.parser fixed_buy = Some rec /\
     bid rec = 1 /\
     FixedWidth.parse_pt_bo fixed_buy = Some (st, out) /\
     range out = -1 /\
     (st = 0 <-> issued out <= rtime out)) /\
  (exists line rec st out,
     FixedWidth.parser line = Some rec /\
     bid rec = 1 /\
     issued rec mod 86400 <= 1 /\ rtime rec mod 86400 <= 1 /\
     issued rec < D20070101 /\ rtime rec < D20070101 /\
     FixedWidth.parse_pt_bo line = Some (st, out) /\
     (st = 0 <-> issued rec <= rtime rec)).
Proof.
  split; [|split].
  - destruct (SelfDelim.parser line_buy) as [rec|] eqn:E;
      [|vm_compute in E; discriminate E].
    assert (Hbid : bid rec = 1)
      by (vm_compute in E; injection E as <-; reflexivity).
    destruct (proj1 (C9_buy_order_range_forced line_buy rec Hbid) E)
      as (st & out & Hp & Hr & _ & Hs).
    exists rec, st, out. repeat split; try assumption; apply Hs.
  - destruct (FixedWidth.parser fixed_buy) as [rec|] eqn:E;
      [|vm_compute in E; discriminate E].
    assert (Hbid : bid rec = 1)
      by (vm_compute in E; injection E as <-; reflexivity).
    destruct (proj2 (C9_buy_order_range_forced fixed_buy rec Hbid) E)
      as (st & out & Hp & Hr & _ & _ & Hs & _).
    exists rec, st, out. repeat split; try assumption; apply Hs.
  - assert (Hline : exists line rec,
              FixedWidth.parser line = Some rec /\ bid rec = 1 /\
              issued rec mod 86400 <= 1 /\ rtime rec mod 86400 <= 1 /\
              issued rec < D20070101 /\ rtime rec < D20070101).
    { first
        [ exists fixed_buy; eexists; split; [vm_compute; reflexivity|];
          split; [reflexivity|];
          split; [vm_compute; discriminate|];
          split; [vm_compute; discriminate|];
          split; vm_compute; reflexivity
        | exists fixed_buy_days; eexists; split; [vm_compute; reflexivity|];
          split; [reflexivity|];
          split; [vm_compute; discriminate|];
          split; [vm_compute; discriminate|];
          split; vm_compute; reflexivity ]. }
    destruct Hline as (line & rec & E & Hbid & Hdi & Hdr & Hei & Her).
    destruct (proj2 (C9_buy_order_range_forced line rec Hbid) E)
      as (st & out & Hp & _ & _ & _ & _ & Hs).
    exists line, rec, st, out.
    repeat (split; [assumption|]). exact (Hs Hdi Hdr Hei Her).
Defined.

Lemma well_typed_correct_times (rec : raw_record) :
  well_typed rec ->
  well_typed (set_rtime (set_issued rec (pt_to_utc (issued rec)))
                (pt_to_utc (rtime rec))).
Proof.
  unfold well_typed. simpl. intros H.
  pose proof (pt_to_utc_range (issued rec)).
  pose proof (pt_to_utc_range (rtime rec)). tauto.
Qed.

Lemma well_typed_set_range (rec : raw_record) (v : Z) :
  well_typed rec -> In v range_codes -> well_typed (set_range rec v).
Proof. unfold well_typed. simpl. tauto. Qed.

(** X8.  Whatever the line and whatever the status, the record that an
    entry point leaves holds every field within the bounds of its type, and
    its range is one of -2, -1, 0, 5, 10, 20, 40 and 127. *)
Theorem entry_record_well_typed (p : Parser) (str : string) (st : Z)
    (out : raw_record) :
  (SelfDelim.entry p str = Some (st, out) -> well_typed out) /\
  (FixedWidth.entry p str = Some (st, out) -> well_typed out).
Proof.
  assert (Hm1 : In (-1) range_codes) by (simpl; tauto).
  split; intros H.
  - destruct p; simpl in H;
      unfold SelfDelim.parse_pt_bo, SelfDelim.parse_pt, SelfDelim.parse in H;
      destruct (SelfDelim.parser str) as [rec|] eqn:E; try discriminate H;
      apply selfdelim_parser_well_typed in E; simpl in H;
      unfold SelfDelim.finish_pt_bo, SelfDelim.finish_pt, SelfDelim.finish
        in H;
      repeat match type of H with
      | context [if ?b then _ else _] => destruct b
      end;
      injection H as _ <-;
      change (SelfDelim.range_to_byte (-1)) with (-1);
      unfold SelfDelim.correct_times;
      auto using well_typed_correct_times, well_typed_set_range.
  - destruct p; simpl in H;
      unfold FixedWidth.parse_pt_bo, FixedWidth.parse_pt, FixedWidth.parse
        in H;
      destruct (FixedWidth.parser str) as [rec|] eqn:E; try discriminate H;
      apply fixed_parser_well_typed in E; simpl in H;
      unfold FixedWidth.finish_pt_bo, FixedWidth.finish_pt, FixedWidth.finish
        in H;
      repeat match type of H with
      | context [if ?b then _ else _] => destruct b
      end;
      injection H as _ <-;
      unfold FixedWidth.correct_times;
      auto using well_typed_correct_times, well_typed_set_range.
Qed.

Lemma entry_record_well_typed_witness :
  well_typed (mk_record 123 10000002 30000142 60003760 34 2 123456 1 100 100
                1171476000 90 127 0 1171544401).
Proof.
  apply (proj1 (entry_record_well_typed Parse_pt line_bid2 0 _)).
  vm_compute. reflexivity.
Defined.

(** ** Accepted records *)

Ltac split_tests H :=
  repeat match type of H with
  | context [?a >? ?b] => destruct (Z.gtb_spec a b); simpl in H
  | context [?a =? ?b] => destruct (Z.eqb_spec a b); simpl in H
  end.

(** X9.  A record returned with status 0 never holds the invalid range -2.
    In the fixed-width variant it also has a bid of 0 or 1 and an issued
    that is not after its rtime, for every entry point.  In [eve_parser.c]
    the bid is 0 or 1 for [parse_pt_bo] only, and issued is not after rtime
    in the returned record for [parse] only.  A buy order accepted by
    [parse_pt_bo] has range -1 in both variants. *)
Theorem accepted_record_invariants (p : Parser) (str : string)
    (out : raw_record) :
  (SelfDelim.entry p str = Some (0, out) ->
   In (range out) [-1; 0; 5; 10; 20; 40; 127] /\
   (p = Parse_pt_bo -> bid out = 0 \/ bid out = 1) /\
   (p = Parse_pt_bo -> bid out = 1 -> range out = -1) /\
   (p = Parse -> issued out <= rtime out)) /\
  (FixedWidth.entry p str = Some (0, out) ->
   In (range out) [-1; 0; 5; 10; 20; 40; 127] /\
   (bid out = 0 \/ bid out = 1) /\
   issued out <= rtime out /\
   (p = Parse_pt_bo -> bid out = 1 -> range out = -1)).
Proof.
  split; intros H.
  - destruct p; simpl in H;
      unfold SelfDelim.parse_pt_bo, SelfDelim.parse_pt, SelfDelim.parse in H;
      destruct (SelfDelim.parser str) as [rec|] eqn:E; try discriminate H;
      pose proof (selfdelim_parser_well_typed str rec E) as Hwt;
      unfold well_typed, range_codes in Hwt; simpl in H;
      unfold SelfDelim.finish_pt_bo, SelfDelim.finish_pt, SelfDelim.finish,
        SelfDelim.correct_times in H;
      change (SelfDelim.range_to_byte (-1)) with (-1) in H;
      split_tests H; try discriminate H;
      injection H as <-; simpl in *;
      (split; [intuition lia|]);
      (split; [intros Hp; try discriminate Hp; lia|]);
      (split; [intros Hp; try discriminate Hp; lia|]);
      intros Hp; try discriminate Hp; lia.
  - destruct p; simpl in H;
      unfold FixedWidth.parse_pt_bo, FixedWidth.parse_pt, FixedWidth.parse
        in H;
      destruct (FixedWidth.parser str) as [rec|] eqn:E; try discriminate H;
      pose proof (fixed_parser_well_typed str rec E) as Hwt;
      unfold well_typed, range_codes in Hwt; simpl in H;
      unfold FixedWidth.finish_pt_bo, FixedWidth.finish_pt,
        FixedWidth.finish, FixedWidth.correct_times in H;
      destruct (Z.eqb_spec (bid rec) 1) as [Hbuy|Hbuy];
      injection H as Hst <-; unfold FixedWidth.has_badval in Hst;
      simpl in *;
      split_tests Hst; try discriminate Hst; simpl in *;
      (split; [intuition lia|]);
      (split; [lia|]);
      (split; [lia|]);
      intros Hp; try discriminate Hp; lia.
Qed.

Lemma accepted_record_invariants_witness :
  exists out,
    SelfDelim.entry Parse_pt_bo line_buy = Some (0, out) /\
    In (range out) [-1; 0; 5; 10; 20; 40; 127] /\
    (bid out = 0 \/ bid out = 1) /\
    range out = -1.
Proof.
  exists (mk_record 123 10000002 30000142 60003760 34 1 123456 1 100 100
            1137348000 90 (-1) 0 1137416401).
  assert (H : SelfDelim.entry Parse_pt_bo line_buy
              = Some (0, mk_record 123 10000002 30000142 60003760 34 1 123456
                           1 100 100 1137348000 90 (-1) 0 1137416401))
    by (vm_compute; reflexivity).
  destruct (proj1 (accepted_record_invariants Parse_pt_bo line_buy _) H)
    as (Hr & Hb & Hbuy & _).
  split; [exact H|]. split; [exact Hr|]. split; [exact (Hb eq_refl)|].
  exact (Hbuy eq_refl eq_refl).
Defined.

(** ** [parse_datetime] of the fixed-width variant *)

Lemma u32_u64 (z : Z) : u32 (u64 z) = u32 z.
Proof.
  unfold u32, u64. rewrite (Z.mod_eq z 18446744073709551616) by lia.
  replace (z - 18446744073709551616 * (z / 18446744073709551616))
    with (z + (-4294967296 * (z / 18446744073709551616)) * 4294967296)
    by lia.
  apply Z_mod_plus_full.
Qed.

Lemma fixed_parse_uint64_run (ds rest : string) :
  all_chars isdigit ds = true -> isdigit (deref rest) = false ->
  FixedWidth.parse_uint64 (ds ++ rest)%string = Some (u64 (decimal ds), rest).
Proof.
  intros Hds Hrest. unfold FixedWidth.parse_uint64, lift.
  exact (f_equal Some (scan_digits_value u64 ds rest u64_step Hds Hrest 0)).
Qed.

Lemma fixed_parse_uint64_stuck (rest : string) :
  isdigit (deref rest) = false ->
  FixedWidth.parse_uint64 rest = Some (0, rest).
Proof. exact (fixed_parse_uint64_run EmptyString rest eq_refl). Qed.

Lemma skip_digits_run (fs rest : string) :
  all_chars isdigit fs = true -> isdigit (deref rest) = false ->
  skip_digits (fs ++ rest) = rest.
Proof.
  intros Hfs Hrest. induction fs as [|c t IH].
  - simpl. destruct rest as [|r rest']; [reflexivity|].
    simpl in Hrest. simpl. rewrite Hrest. reflexivity.
  - simpl in Hfs. apply andb_prop in Hfs. destruct Hfs as [Hc Ht].
    simpl. rewrite Hc. exact (IH Ht).
Qed.

Lemma ejday_range (y m d : Z) : 0 <= ejday y m d < 4294967296.
Proof. unfold ejday. apply u32_range. Qed.

Lemma append_empty (str : string) : (str ++ EmptyString)%string = str.
Proof.
  induction str as [|c t IH]; [reflexivity|]. simpl. rewrite IH. reflexivity.
Qed.

(** Behind the one run of digits that it reads, [parse_datetime] has a value
    [base] that does not depend on the text that follows: [ejday] of the
    run in one of its three arguments (which one is left to the order in
    which the three scans of the call are run) and 0 in the other two. *)
Lemma fixed_datetime_head (ds : string) :
  all_chars isdigit ds = true ->
  exists base,
    (base = ejday (u32 (decimal ds)) 0 0 \/
     base = ejday 0 (u32 (decimal ds)) 0 \/
     base = ejday 0 0 (u32 (decimal ds))) /\
    forall rest,
      isdigit (deref rest) = false ->
      FixedWidth.parse_datetime (ds ++ rest)%string
      = (c <- peek ;;
         if negb (c =? ".")%char then ret base
         else
           bump ;;;
           d <- peek ;;
           let val :=
             if isdigit d && (code d - 48 >? 5) then u32 (base + 1)
             else base in
           lift (fun str => (tt, skip_digits str)) ;;;
           ret val) rest.
Proof.
  intros Hds. eexists. split; cycle 1.
  - intros rest Hrest. unfold FixedWidth.parse_datetime.
    unfold bind at 1. rewrite (fixed_parse_uint64_run ds rest Hds Hrest).
    do 5 (unfold bind at 1; rewrite (fixed_parse_uint64_stuck rest Hrest)).
    rewrite u32_u64.
    change (u32 0) with 0. change (0 * SEC_PER_HOUR) with 0.
    change (0 * SEC_PER_MIN) with 0. change (u32 0) with 0.
    rewrite !Z.add_0_r.
    rewrite !(u32_small (ejday _ _ _)) by apply ejday_range.
    reflexivity.
  - first [ left; reflexivity
          | right; left; reflexivity
          | right; right; reflexivity ].
Qed.

(** X10.  [parse_datetime] of the fixed-width variant reads one run of
    digits and nothing else.  When the byte behind the run is neither a
    digit nor a full stop (the dash of a date, say), the result is [ejday]
    of the run in one argument and 0 in the other two, the time of day is
    0, whatever text follows, and the cursor stays on that byte.  With an
    empty run, on a text that starts neither with a digit nor with a full
    stop, the result is [ejday 0 0 0] and the cursor does not move. *)
Theorem fixed_datetime_reads_one_run (ds : string) :
  all_chars isdigit ds = true ->
  exists base,
    (base = ejday (u32 (decimal ds)) 0 0 \/
     base = ejday 0 (u32 (decimal ds)) 0 \/
     base = ejday 0 0 (u32 (decimal ds))) /\
    forall rest,
      isdigit (deref rest) = false ->
      (deref rest =? ".")%char = false ->
      FixedWidth.parse_datetime (ds ++ rest)%string = Some (base, rest).
Proof.
  intros Hds. destruct (fixed_datetime_head ds Hds) as (base & Hbase & Hhead).
  exists base. split; [exact Hbase|].
  intros rest Hrest Hdot. rewrite (Hhead rest Hrest).
  unfold bind, peek. rewrite Hdot. reflexivity.
Qed.

Lemma fixed_datetime_reads_one_run_witness :
  exists base,
    FixedWidth.parse_datetime "2006-01-16 05:00:01.600"%string
    = Some (base, "-01-16 05:00:01.600"%string) /\
    FixedWidth.parse_datetime "2006-12-31 23:59:59"%string
    = Some (base, "-12-31 23:59:59"%string).
Proof.
  destruct (fixed_datetime_reads_one_run "2006" eq_refl)
    as (base & _ & Hrun).
  exists base. split.
  - exact (Hrun "-01-16 05:00:01.600"%string eq_refl eq_refl).
  - exact (Hrun "-12-31 23:59:59"%string eq_refl eq_refl).
Defined.

(** X11.  When a full stop and a digit follow the run of digits,
    [parse_datetime] of the fixed-width variant rounds on the first digit
    of the fraction alone: against the value it has for the same run
    without a fraction, a 6 or more adds one second, a 5 or less adds
    nothing, and the whole fraction is consumed. *)
Theorem fixed_datetime_rounds (ds fs rest tail : string) (f : ascii) :
  all_chars isdigit ds = true ->
  isdigit f = true ->
  all_chars isdigit fs = true ->
  isdigit (deref rest) = false ->
  isdigit (deref tail) = false ->
  (deref tail =? ".")%char = false ->
  exists base,
    FixedWidth.parse_datetime (ds ++ tail)%string = Some (base, tail) /\
    FixedWidth.parse_datetime
      (ds ++ String "." (String f (fs ++ rest)))%string
    = Some (if 54 <=? code f then u32 (base + 1) else base, rest).
Proof.
  intros Hds Hf Hfs Hrest Htail Hdot.
  destruct (fixed_datetime_head ds Hds) as (base & _ & Hhead).
  exists base. split.
  - rewrite (Hhead tail Htail). unfold bind, peek. rewrite Hdot.
    reflexivity.
  - rewrite (Hhead (String "." (String f (fs ++ rest))) eq_refl).
    unfold bind, peek, bump, lift, ret. simpl. rewrite Hf. simpl.
    rewrite (skip_digits_run fs rest Hfs Hrest).
    destruct (Z.gtb_spec (code f - 48) 5); destruct (Z.leb_spec 54 (code f));
      try lia; reflexivity.
Qed.

Lemma fixed_datetime_rounds_witness :
  exists base,
    FixedWidth.parse_datetime "2006,"%string = Some (base, ","%string) /\
    FixedWidth.parse_datetime "2006.600,"%string
    = Some (u32 (base + 1), ","%string) /\
    FixedWidth.parse_datetime "2006.599,"%string = Some (base, ","%string).
Proof.
  destruct (fixed_datetime_rounds "2006" "00" "," "," "6"
              eq_refl eq_refl eq_refl eq_refl eq_refl eq_refl)
    as (base & Hplain & Hup).
  destruct (fixed_datetime_rounds "2006" "99" "," "," "5"
              eq_refl eq_refl eq_refl eq_refl eq_refl eq_refl)
    as (base' & Hplain' & Hdown).
  assert (Heq : base' = base) by congruence. subst base'.
  exists base. split; [exact Hplain|]. split; [exact Hup|exact Hdown].
Defined.

(** ** The rounding test of [eve_parser.c] *)


(** ** Lines on which the assemblers have a result *)

Lemma selfdelim_entry_total_witness :
  no_final_dot line_buy_frac6 = true /\
  exists st out,
    SelfDelim.entry Parse_pt line_buy_frac6 = Some (st, out) /\
    (st = 0 \/ st = 1).
Proof.
  assert (H : no_final_dot line_buy_frac6 = true) by (vm_compute; reflexivity).
  split; [exact H|].
  exact (selfdelim_entry_total Parse_pt line_buy_frac6 H).
Defined.

Lemma forward_ret {A : Type} (a : A) : forward (ret a).
Proof. intros str b rest H. apply ret_inv in H. destruct H as [_ ->]. lia. Qed.

Lemma forward_bind {A B : Type} (m : Scan A) (f : A -> Scan B) :
  forward m -> (forall a, forward (f a)) -> forward (bind m f).
Proof.
  intros Hm Hf str b rest H. apply bind_inv in H.
  destruct H as (a & s1 & E1 & E2).
  pose proof (Hm str a s1 E1). pose proof (Hf a s1 b rest E2). lia.
Qed.

Lemma forward_peek : forward peek.
Proof.
  intros str a rest H. unfold peek in H. injection H as _ <-. apply le_n.
Qed.

Lemma forward_bump : forward bump.
Proof.
  intros str a rest H. destruct str as [|c t]; [discriminate|].
  simpl in H. destruct (is_nul c); [discriminate|].
  injection H as _ <-. simpl. lia.
Qed.

Lemma scan_digits_length (wrap : Z -> Z) (str : string) (v : Z) :
  (String.length (snd (scan_digits wrap v str)) <= String.length str)%nat.
Proof.
  revert v. induction str as [|c t IH]; intros v; simpl; [lia|].
  destruct (isdigit c); [|simpl; lia].
  specialize (IH (wrap (v * 10 + code c - 48))). lia.
Qed.

Lemma skip_digits_length (str : string) :
  (String.length (skip_digits str) <= String.length str)%nat.
Proof.
  induction str as [|c t IH]; simpl; [lia|].
  destruct (isdigit c); simpl; lia.
Qed.

Lemma forward_fixed_parse_uint64 : forward FixedWidth.parse_uint64.
Proof.
  intros str a rest H. unfold FixedWidth.parse_uint64, lift in H.
  pose proof (scan_digits_length u64 str 0) as Hl.
  injection H as H. rewrite H in Hl. exact Hl.
Qed.

Lemma forward_skip_digits :
  forward (lift (fun str => (tt, skip_digits str))).
Proof.
  intros str a rest H. unfold lift in H. injection H as _ <-.
  apply skip_digits_length.
Qed.

Ltac forward_steps :=
  repeat first
    [ apply forward_ret | apply forward_peek | apply forward_bump
    | apply forward_fixed_parse_uint64 | apply forward_skip_digits
    | apply forward_bind; [|intros ?]
    | match goal with
      | |- forward (if ?b then _ else _) => destruct b
      end ].

Lemma forward_fixed_cents (price : Z) : forward (FixedWidth.cents price).
Proof. unfold FixedWidth.cents. forward_steps. Qed.

Lemma forward_fixed_parse_range : forward FixedWidth.parse_range.
Proof. unfold FixedWidth.parse_range. forward_steps. Qed.

Lemma forward_fixed_parse_datetime : forward FixedWidth.parse_datetime.
Proof. unfold FixedWidth.parse_datetime. forward_steps. Qed.

Lemma skip3_length (str rest : string) (u : unit) :
  FixedWidth.skip3 str = Some (u, rest) ->
  String.length str = (String.length rest + 3)%nat.
Proof.
  unfold FixedWidth.skip3, bind, bump.
  destruct str as [|c1 [|c2 [|c3 t]]]; try discriminate;
    try (destruct (is_nul c1); discriminate);
    try (destruct (is_nul c1); [discriminate|];
         destruct (is_nul c2); discriminate).
  destruct (is_nul c1); [discriminate|].
  destruct (is_nul c2); [discriminate|].
  destruct (is_nul c3); [discriminate|].
  intros H. injection H as _ <-. simpl. lia.
Qed.

(** X13.  The assembler of the fixed-width variant steps over fourteen
    separators of three bytes each, so it has a result only on lines of at
    least 42 bytes; on a shorter line, the empty line included, it moves
    the cursor over the terminator.  A line of 42 bytes can be enough. *)
Theorem fixed_parser_needs_42_bytes (str : string) (rec : raw_record) :
  FixedWidth.parser str = Some rec -> (42 <= String.length str)%nat.
Proof.
  unfold FixedWidth.parser. intros H. apply run_inv in H.
  destruct H as [cur H]. unfold FixedWidth.parser_scan in H. scan_inv H.
  repeat match goal with
  | E : FixedWidth.skip3 _ = Some _ |- _ => apply skip3_length in E
  | E : FixedWidth.parse_uint64 _ = Some _ |- _ =>
      apply forward_fixed_parse_uint64 in E
  | E : FixedWidth.cents _ _ = Some _ |- _ => apply forward_fixed_cents in E
  | E : FixedWidth.parse_datetime _ = Some _ |- _ =>
      apply forward_fixed_parse_datetime in E
  | E : FixedWidth.parse_range _ = Some _ |- _ =>
      apply forward_fixed_parse_range in E
  | E : peek _ = Some _ |- _ => apply forward_peek in E
  | E : (if ?b then _ else _) _ = Some _ |- _ =>
      let F := fresh "F" in
      assert (F : forward (if b then bump else ret tt))
        by (destruct b; forward_steps);
      apply F in E; clear F
  | E : (if ?b then _ else _) _ = Some _ |- _ =>
      let F := fresh "F" in
      assert (F : forward (if b
                           then bump ;;; FixedWidth.parse_uint64 ;;; ret tt
                           else ret tt))
        by (destruct b; forward_steps);
      apply F in E; clear F
  end.
  lia.
Qed.

Lemma fixed_parser_needs_42_bytes_witness :
  FixedWidth.parser fixed_shortest = Some blank_record /\
  String.length fixed_shortest = 42%nat /\
  (42 <= String.length fixed_shortest)%nat.
Proof.
  assert (H : FixedWidth.parser fixed_shortest = Some blank_record)
    by (vm_compute; reflexivity).
  split; [exact H|]. split; [reflexivity|].
  exact (fixed_parser_needs_42_bytes fixed_shortest blank_record H).
Defined.

(** ** What stands in front of the first field *)

Lemma skip_nondigits_prefix (sep str : string) :
  all_chars is_blank sep = true ->
  SelfDelim.skip_nondigits (sep ++ str) = SelfDelim.skip_nondigits str.
Proof.
  intros Hsep. induction sep as [|c t IH]; [reflexivity|].
  simpl in Hsep. apply andb_prop in Hsep. destruct Hsep as [Hc Ht].
  unfold is_blank in Hc. simpl. rewrite Hc. exact (IH Ht).
Qed.

Lemma bind_peek {B : Type} (f : ascii -> Scan B) (str : string) :
  bind peek f str = f (deref str) str.
Proof. reflexivity. Qed.

Lemma bind_ret {A B : Type} (a : A) (f : A -> Scan B) (str : string) :
  bind (ret a) f str = f a str.
Proof. reflexivity. Qed.

(** X14.  [eve_parser.c] ignores any bytes in front of the first digit of
    a line, as long as none is the terminator.  The fixed-width variant
    ignores exactly one double quote in front of the line. *)
Theorem leading_bytes_ignored (sep str : string) :
  (all_chars is_blank sep = true ->
   SelfDelim.parser (sep ++ str) = SelfDelim.parser str) /\
  ((deref str =? "034")%char = false ->
   FixedWidth.parser (String "034" str) = FixedWidth.parser str).
Proof.
  split.
  - intros Hsep. unfold SelfDelim.parser, run.
    assert (Hfront : SelfDelim.parser_front (sep ++ str)%string
                     = SelfDelim.parser_front str).
    { apply bind_congr.
      unfold SelfDelim.parse_uint64, SelfDelim.parse_num, lift.
      rewrite (skip_nondigits_prefix sep str Hsep). reflexivity. }
    rewrite (bind_congr SelfDelim.parser_front _ _ _ Hfront). reflexivity.
  - intros Hq. unfold FixedWidth.parser, run, FixedWidth.parser_scan.
    rewrite !bind_peek. simpl deref. rewrite Hq.
    change ("034" =? "034")%char with true. cbv iota.
    rewrite bind_ret. reflexivity.
Qed.

Lemma leading_bytes_ignored_witness :
  SelfDelim.parser (String " " (String "034" "123,4"))
  = SelfDelim.parser "123,4" /\
  FixedWidth.parser (String "034" "123,4") = FixedWidth.parser "123,4".
Proof.
  split.
  - exact (proj1 (leading_bytes_ignored (String " " (String "034" EmptyString))
                    "123,4") eq_refl).
  - exact (proj2 (leading_bytes_ignored EmptyString "123,4") eq_refl).
Defined.

(** ** What the entry points leave alone *)

(** X15.  An entry point changes nothing of the assembled record but
    range, issued and rtime; [parse] returns the record exactly as
    assembled.  This holds in both variants and for every status. *)
Theorem entry_keeps_other_fields (p : Parser) (str : string) (st : Z)
    (rec out : raw_record) :
  (SelfDelim.parser str = Some rec /\ SelfDelim.entry p str = Some (st, out))
  \/
  (FixedWidth.parser str = Some rec /\
   FixedWidth.entry p str = Some (st, out)) ->
  orderID out = orderID rec /\ regionID out = regionID rec /\
  systemID out = systemID rec /\ stationID out = stationID rec /\
  typeID out = typeID rec /\ bid out = bid rec /\ price out = price rec /\
  volMin out = volMin rec /\ volRem out = volRem rec /\
  volEnt out = volEnt rec /\ duration out = duration rec /\
  reportedby out = reportedby rec /\
  (p = Parse -> out = rec).
Proof.
  intros [[E H]|[E H]]; destruct p; simpl in H;
    unfold SelfDelim.parse_pt_bo, SelfDelim.parse_pt, SelfDelim.parse,
      FixedWidth.parse_pt_bo, FixedWidth.parse_pt, FixedWidth.parse in H;
    rewrite E in H; simpl in H;
    unfold SelfDelim.finish_pt_bo, SelfDelim.finish_pt, SelfDelim.finish,
      FixedWidth.finish_pt_bo, FixedWidth.finish_pt, FixedWidth.finish in H;
    repeat match type of H with
    | context [if ?b then _ else _] => destruct b
    end;
    injection H as _ <-; simpl;
    repeat split; try reflexivity; intros Hp; discriminate Hp.
Qed.

Lemma entry_keeps_other_fields_witness :
  price (mk_record 123 10000002 30000142 60003760 34 1 123456 1 100 100
           1137348000 90 (-1) 0 1137416401)
  = price rec_buy.
Proof.
  assert (E : SelfDelim.parser line_buy = Some rec_buy)
    by (vm_compute; reflexivity).
  assert (H : SelfDelim.entry Parse_pt_bo line_buy
              = Some (0, mk_record 123 10000002 30000142 60003760 34 1 123456
                           1 100 100 1137348000 90 (-1) 0 1137416401))
    by (vm_compute; reflexivity).
  destruct (entry_keeps_other_fields Parse_pt_bo line_buy 0 rec_buy _
              (or_introl (conj E H)))
    as (_ & _ & _ & _ & _ & _ & Hprice & _).
  exact Hprice.
Defined.

(** ** Range codes outside the table *)

Lemma skip_to_sign_run (sep tail : string) :
  all_chars is_sep sep = true ->
  isdigit (deref tail) = true ->
  SelfDelim.skip_to_sign (sep ++ tail) = tail.
Proof.
  intros Hsep Htail. induction sep as [|c t IH].
  - simpl. destruct tail as [|r tail']; [discriminate Htail|].
    simpl in Htail. simpl. rewrite Htail. reflexivity.
  - simpl in Hsep. apply andb_prop in Hsep. destruct Hsep as [Hc Ht].
    unfold is_sep in Hc. simpl. rewrite Hc. exact (IH Ht).
Qed.

Lemma digit_run_deref (ds rest : string) :
  all_chars isdigit ds = true -> ds <> EmptyString ->
  isdigit (deref (ds ++ rest)) = true.
Proof.
  destruct ds as [|c t]; [congruence|]. simpl. intros H _.
  apply andb_prop in H. tauto.
Qed.

Lemma isdigit_not_minus (c : ascii) :
  isdigit c = true -> (c =? "-")%char = false.
Proof.
  destruct (Ascii.eqb_spec c "-"%char) as [->|_]; [discriminate|reflexivity].
Qed.

(** X17.  In [eve_parser.c], a range field that holds a number outside the
    table (0, 5, 10, 20, 40, 32767, 65535) is assembled as -2, and the
    line is rejected with status 1 by [parse_pt] and [parse], and by
    [parse_pt_bo] unless the bid is 1: on a buy order [parse_pt_bo]
    replaces the invalid range by -1 before it validates. *)
Theorem unknown_range_rejected (str cur sep ds rest : string)
    (rec0 : raw_record) :
  SelfDelim.parser_front str = Some (rec0, cur) ->
  cur = (sep ++ ds ++ rest)%string ->
  all_chars is_sep sep = true ->
  all_chars isdigit ds = true ->
  ds <> EmptyString ->
  isdigit (deref rest) = false ->
  decimal ds < 2147483648 ->
  ~ In (decimal ds) [0; 5; 10; 20; 40; 32767; 65535] ->
  exists rec,
    SelfDelim.parser str = Some rec /\
    range rec = -2 /\
    bid rec = bid rec0 /\
    SelfDelim.parse_pt str = Some (1, rec) /\
    SelfDelim.parse str = Some (1, rec) /\
    (bid rec0 <> 1 -> SelfDelim.parse_pt_bo str = Some (1, rec)) /\
    (bid rec0 = 1 ->
     exists st out,
       SelfDelim.parse_pt_bo str = Some (st, out) /\ range out = -1).
Proof.
  intros Hfront -> Hsep Hds Hne Hrest Hsmall Hnot.
  pose proof (decimal_nonneg ds Hds) as Hpos.
  pose proof (digit_run_deref ds rest Hds Hne) as Hhead.
  assert (Hint : SelfDelim.parse_int (ds ++ rest)%string
                 = Some (decimal ds, rest)).
  { pose proof (parse_num_decimal i32 EmptyString ds rest i32_step eq_refl
                  eq_refl Hds Hne Hrest) as Hp.
    change (EmptyString ++ ds ++ rest)%string with (ds ++ rest)%string in Hp.
    unfold SelfDelim.parse_int. rewrite Hp.
    unfold i32. rewrite Z.mod_small by lia. do 2 f_equal. lia. }
  assert (Hcode : SelfDelim.range_to_byte (decimal ds) = -2).
  { apply range_to_byte_default; intros Heq; apply Hnot; simpl; lia. }
  assert (Hrange : SelfDelim.parse_range (sep ++ ds ++ rest)%string
                   = Some (-2, rest)).
  { unfold SelfDelim.parse_range.
    rewrite (skip_to_sign_run sep (ds ++ rest) Hsep Hhead).
    destruct (ds ++ rest)%string as [|c t] eqn:Heq; [discriminate Hhead|].
    simpl in Hhead. simpl deref. rewrite (isdigit_not_minus c Hhead).
    unfold bind. rewrite Hint. unfold ret. rewrite Hcode. reflexivity. }
  destruct (parse_num_total u64 rest) as (reportedby & s1 & Hrep).
  destruct (timestamp_total s1) as (rtime & s2 & Htime).
  exists (set_rtime (set_reportedby (set_range rec0 (-2)) reportedby) rtime).
  assert (Hparser : SelfDelim.parser str
            = Some (set_rtime (set_reportedby (set_range rec0 (-2))
                                 reportedby) rtime)).
  { unfold SelfDelim.parser, run, bind. rewrite Hfront.
    unfold SelfDelim.parser_back, bind, SelfDelim.parse_uint64.
    rewrite Hrange, Hrep, Htime. reflexivity. }
  pose proof (parser_front_bid str _ rec0 Hfront) as Hbid.
  split; [exact Hparser|]. split; [reflexivity|]. split; [reflexivity|].
  unfold SelfDelim.parse_pt, SelfDelim.parse, SelfDelim.parse_pt_bo.
  rewrite Hparser. simpl.
  unfold SelfDelim.finish_pt, SelfDelim.finish, SelfDelim.finish_pt_bo.
  simpl. split; [reflexivity|]. split; [reflexivity|]. split.
  - intros Hb. destruct (Z.gtb_spec (bid rec0) 1); [reflexivity|].
    destruct (Z.eqb_spec (bid rec0) 1); [contradiction|reflexivity].
  - intros Hb. rewrite Hb. simpl.
    match goal with
    | |- context [if ?b then _ else _] => destruct b
    end; eexists; eexists; split; reflexivity.
Qed.

Lemma unknown_range_rejected_witness :
  exists rec,
    SelfDelim.parser line_range7 = Some rec /\
    range rec = -2 /\
    SelfDelim.parse_pt line_range7 = Some (1, rec) /\
    SelfDelim.parse_pt_bo line_range7 = Some (1, rec).
Proof.
  assert (Hfront : SelfDelim.parser_front line_range7
            = Some (mk_record 123 10000002 30000142 60003760 34 0 123456 1
                      100 100 1137319200 90 0 0 0,
                    quoted "','7','0','2006-01-16 05:00:01'"))
    by (vm_compute; reflexivity).
  assert (Hne : "7"%string <> EmptyString) by discriminate.
  assert (Hsmall : decimal "7" < 2147483648) by (vm_compute; reflexivity).
  assert (Hnot : ~ In (decimal "7") [0; 5; 10; 20; 40; 32767; 65535]).
  { simpl. intros H. repeat destruct H as [H|H]; try discriminate H; exact H. }
  destruct (unknown_range_rejected line_range7 _ (quoted "','") "7"
              (quoted "','0','2006-01-16 05:00:01'") _ Hfront
              eq_refl eq_refl eq_refl Hne eq_refl Hsmall Hnot)
    as (rec & Hp & Hr & Hb & Hpt & _ & Hbo & _).
  exists rec. split; [exact Hp|]. split; [exact Hr|]. split; [exact Hpt|].
  apply Hbo. simpl. discriminate.
Defined.
